(** * update_jdlogistics_json.py: the expected-date estimator and the
      update guard, embedded and verified.

    The script fetches the latest daily bar of one Hong Kong security and
    overwrites a small JSON snapshot with it, unless the provider has not
    caught up with the expected trade date or the snapshot is already at
    that date.

    Layout: the part of Python's [datetime] the script calls, the Python
    values and the effects of a run, the seven functions of the script,
    and then the properties.

    What is outside the script is modelled as follows.
    - [datetime] follows CPython: dates from 0001-01-01 to 9999-12-31,
      arithmetic through ordinals, OverflowError outside the calendar.
      [strftime] is the one of the C library, taken as glibc's: [%Y]
      writes the year with no padding.
    - Floats, the JSON decoder and encoder and the sort of pandas are
      parameters: nothing is assumed about them, except where a theorem
      says so.
    - The environment, the clock and the provider are a [world] a run
      reads; the files and the trace of what was done are the [state] a
      run threads.  Each [print] is an event that carries the values the
      line shows.
    - A file is absent or has a text; files that exist and cannot be read
      or written are not modelled. *)

From Stdlib Require Import ZArith List String Ascii Bool Lia DecimalString.
From Stdlib Require Import Sorting.Permutation Sorting.Sorted.
Import ListNotations.

Open Scope string_scope.
Open Scope Z_scope.

(** ** Results of a call

    A call returns, raises, or - for the one loop of the script, which is
    run on fuel - is cut short.  [prev_weekday_fuel_enough] shows that the
    third case never happens at the fuel the embedding gives. *)

Inductive exn : Type :=
| OverflowError
| RuntimeError (msg : string)
| KeyError (key : string)
| IndexError
| ValueError
| TypeError
| AttributeError
| FileNotFoundError
| JSONDecodeError
| ProviderError (msg : string).

Inductive res (A : Type) : Type :=
| Ret (a : A)
| Raise (e : exn)
| OutOfFuel.

Arguments Ret {A} a.
Arguments Raise {A} e.
Arguments OutOfFuel {A}.

(** ** [datetime.date] and [datetime.datetime]

    The proleptic Gregorian calendar of CPython's [datetime]: a date holds
    year, month and day, and arithmetic goes through the ordinal
    (0001-01-01 is day 1). *)

Module PyDate.

Definition MINYEAR : Z := 1.
Definition MAXYEAR : Z := 9999.
Definition MAXORDINAL : Z := 3652059.

Definition DI400Y : Z := 146097.
Definition DI100Y : Z := 36524.
Definition DI4Y : Z := 1461.

(** [_DAYS_IN_MONTH] and [_DAYS_BEFORE_MONTH]; index 0 is the placeholder
    -1, and -1 also stands for an index outside the table, which no
    month computed below reaches. *)
Definition DAYS_IN_MONTH (m : Z) : Z :=
  nth (Z.to_nat m) [-1; 31; 28; 31; 30; 31; 30; 31; 31; 30; 31; 30; 31] (-1).

Definition DAYS_BEFORE_MONTH (m : Z) : Z :=
  nth (Z.to_nat m)
      [-1; 0; 31; 59; 90; 120; 151; 181; 212; 243; 273; 304; 334] (-1).

Definition is_leap (y : Z) : bool :=
  (y mod 4 =? 0) && (negb (y mod 100 =? 0) || (y mod 400 =? 0)).

Definition days_before_year (year : Z) : Z :=
  let y := year - 1 in
  y * 365 + y / 4 - y / 100 + y / 400.

Definition days_in_month (year month : Z) : Z :=
  if (month =? 2) && is_leap year then 29 else DAYS_IN_MONTH month.

Definition days_before_month (year month : Z) : Z :=
  DAYS_BEFORE_MONTH month + (if (month >? 2) && is_leap year then 1 else 0).

Definition ymd2ord (year month day : Z) : Z :=
  days_before_year year + days_before_month year month + day.

Definition ord2ymd (n : Z) : Z * Z * Z :=
  let n := n - 1 in
  let n400 := n / DI400Y in
  let n := n mod DI400Y in
  let year := n400 * 400 + 1 in
  let n100 := n / DI100Y in
  let n := n mod DI100Y in
  let n4 := n / DI4Y in
  let n := n mod DI4Y in
  let n1 := n / 365 in
  let n := n mod 365 in
  let year := year + n100 * 100 + n4 * 4 + n1 in
  if (n1 =? 4) || (n100 =? 4) then (year - 1, 12, 31)
  else
    let leapyear := (n1 =? 3) && (negb (n4 =? 24) || (n100 =? 3)) in
    let month := Z.shiftr (n + 50) 5 in
    let preceding :=
      DAYS_BEFORE_MONTH month + (if (month >? 2) && leapyear then 1 else 0) in
    if preceding >? n then
      let month := month - 1 in
      let preceding :=
        preceding
        - (DAYS_IN_MONTH month + (if (month =? 2) && leapyear then 1 else 0)) in
      (year, month, n - preceding + 1)
    else (year, month, n - preceding + 1).

Record date : Type := mkdate { year : Z; month : Z; day : Z }.

(** What the constructor of [date] accepts. *)
Definition valid_date (d : date) : bool :=
  (MINYEAR <=? year d) && (year d <=? MAXYEAR)
  && (1 <=? month d) && (month d <=? 12)
  && (1 <=? day d) && (day d <=? days_in_month (year d) (month d)).

Definition toordinal (d : date) : Z := ymd2ord (year d) (month d) (day d).

Definition fromordinal (n : Z) : date :=
  let '(y, m, d) := ord2ymd n in mkdate y m d.

(** Monday is 0, Sunday is 6. *)
Definition weekday (d : date) : Z := (toordinal d + 6) mod 7.

(** [d + timedelta(days=n)]. *)
Definition date_add_days (d : date) (n : Z) : res date :=
  let o := toordinal d + n in
  if (0 <? o) && (o <=? MAXORDINAL) then Ret (fromordinal o)
  else Raise OverflowError.

(** [d - timedelta(days=n)], which Python computes as [d + timedelta(-n)]. *)
Definition date_sub_days (d : date) (n : Z) : res date := date_add_days d (- n).

(** Dates compare as the tuples (year, month, day). *)
Fixpoint cmp_tuple (a b : list Z) : comparison :=
  match a, b with
  | [], [] => Eq
  | [], _ :: _ => Lt
  | _ :: _, [] => Gt
  | x :: a', y :: b' =>
      match x ?= y with
      | Eq => cmp_tuple a' b'
      | c => c
      end
  end.

Definition date_lt (a b : date) : bool :=
  match cmp_tuple [year a; month a; day a] [year b; month b; day b] with
  | Lt => true
  | _ => false
  end.

(** A naive [datetime]: the script builds its times from [utcnow()], so
    there is no [tzinfo]. *)
Record datetime : Type := mkdatetime {
  date_of : date;
  hour : Z;
  minute : Z;
  second : Z;
  microsecond : Z
}.

Definition valid_datetime (t : datetime) : bool :=
  valid_date (date_of t)
  && (0 <=? hour t) && (hour t <? 24)
  && (0 <=? minute t) && (minute t <? 60)
  && (0 <=? second t) && (second t <? 60)
  && (0 <=? microsecond t) && (microsecond t <? 1000000).

Definition datetime_state (t : datetime) : list Z :=
  [year (date_of t); month (date_of t); day (date_of t);
   hour t; minute t; second t; microsecond t].

(** [a >= b] on naive datetimes. *)
Definition datetime_ge (a b : datetime) : bool :=
  match cmp_tuple (datetime_state a) (datetime_state b) with
  | Lt => false
  | _ => true
  end.

(** [t + timedelta(hours=h)]. *)
Definition datetime_add_hours (t : datetime) (h : Z) : res datetime :=
  let secs := hour t * 3600 + minute t * 60 + second t + h * 3600 in
  let days := toordinal (date_of t) + secs / 86400 in
  let s := secs mod 86400 in
  if (0 <? days) && (days <=? MAXORDINAL) then
    Ret (mkdatetime (fromordinal days)
                    (s / 3600) ((s mod 3600) / 60) ((s mod 3600) mod 60)
                    (microsecond t))
  else Raise OverflowError.

(** One decimal digit as a character. *)
Definition digit (n : Z) : ascii := ascii_of_N (Z.to_N (48 + n mod 10)).

Definition pad2 (n : Z) : string :=
  String (digit (n / 10)) (String (digit n) EmptyString).

Definition pad4 (n : Z) : string :=
  String (digit (n / 1000)) (String (digit (n / 100)) (pad2 n)).

(** The year as [%Y] writes it.  CPython hands the format to the C
    library, and glibc writes the year in decimal with no padding: 1 is
    "1" and 999 is "999"; from 1000 to 9999 that is four digits. *)
Definition year_digits (y : Z) : string :=
  if y <? 10 then String (digit y) EmptyString
  else if y <? 100 then pad2 y
  else if y <? 1000 then String (digit (y / 100)) (pad2 y)
  else pad4 y.

(** [d.strftime("%Y%m%d")]: the year as [%Y] writes it, then month and day
    on two digits each.  0001-01-01 gives "10101". *)
Definition strftime_Ymd (d : date) : string :=
  year_digits (year d) ++ pad2 (month d) ++ pad2 (day d).

End PyDate.

Import PyDate.


(** ** Python values

    The cells of a pandas row, what [json.load] builds and the record the
    script writes, over the type [F] of floats. *)

Section Data.

Variable F : Type.

(** A cell of a pandas row. *)
Inductive pyval : Type :=
| PNone
| PStr (s : string)
| PInt (n : Z)
| PFloat (x : F).

(** A row ([Series]) by column name, each name once, and a frame as its
    rows. *)
Definition series : Type := list (string * pyval).
Definition frame : Type := list series.

(** What [json.load] builds. *)
#[local] Unset Elimination Schemes.
Inductive json : Type :=
| JNull
| JBool (b : bool)
| JInt (n : Z)
| JFloat (x : F)
| JStr (s : string)
| JArr (items : list json)
| JObj (members : list (string * json)).
#[local] Set Elimination Schemes.

(** The [data] dict of [row_to_json], one field per key. *)
Record snapshot : Type := mksnapshot {
  snap_symbol : string;
  snap_date : string;
  snap_open : F;
  snap_high : F;
  snap_low : F;
  snap_close : F;
  snap_volume : Z;
  snap_amount : F
}.

(** *** What a run reads and what it does

    The world holds what the script reads but does not change: the
    environment, the clock (reading [k] of [utcnow()]) and the provider.
    The state holds the files and the trace of what was done so far. *)

Record world : Type := {
  getenv : string -> option string;
  utcnow : nat -> datetime;
  hk_daily : string -> string -> string -> exn + option frame
}.

(** The lines printed, each with the values it shows. *)
Inductive msg : Type :=
| InfoNow (now_bj : datetime) (expected_td : string)
| InfoTsCode (ts_code : string)
| InfoRequestRange (start_date end_date : string)
| WarnEmptyFrame
| InfoReturned (rows : Z) (min_d max_d : string)
| InfoNoData
| InfoLatest (latest_td : string)
| InfoNotUpdated
| InfoSkip (latest_td expected_td : string)
| WarnLater
| InfoNoChanges (latest_td : string)
| OkUpdated (data : snapshot).

Inductive event : Type :=
| EvSetToken (token : string)
| EvProApi
| EvQuery (ts_code start_date end_date : string)
| EvRead (path : string)
| EvWrite (path : string) (content : string)
| EvPrint (m : msg).

Record state : Type := mkstate {
  files : string -> option string;
  ticks : nat;
  trace : list event
}.

End Data.

Arguments PNone {F}.
Arguments PStr {F} s.
Arguments PInt {F} n.
Arguments PFloat {F} x.
Arguments JNull {F}.
Arguments JBool {F} b.
Arguments JInt {F} n.
Arguments JFloat {F} x.
Arguments JStr {F} s.
Arguments JArr {F} items.
Arguments JObj {F} members.
Arguments mksnapshot {F}.
Arguments snap_symbol {F}.
Arguments snap_date {F}.
Arguments snap_open {F}.
Arguments snap_high {F}.
Arguments snap_low {F}.
Arguments snap_close {F}.
Arguments snap_volume {F}.
Arguments snap_amount {F}.
Arguments getenv {F}.
Arguments utcnow {F}.
Arguments hk_daily {F}.
Arguments InfoNow {F}.
Arguments InfoTsCode {F}.
Arguments InfoRequestRange {F}.
Arguments WarnEmptyFrame {F}.
Arguments InfoReturned {F}.
Arguments InfoNoData {F}.
Arguments InfoLatest {F}.
Arguments InfoNotUpdated {F}.
Arguments InfoSkip {F}.
Arguments WarnLater {F}.
Arguments InfoNoChanges {F}.
Arguments OkUpdated {F}.
Arguments EvSetToken {F}.
Arguments EvProApi {F}.
Arguments EvQuery {F}.
Arguments EvRead {F}.
Arguments EvWrite {F}.
Arguments EvPrint {F}.
Arguments mkstate {F}.
Arguments files {F}.
Arguments ticks {F}.
Arguments trace {F}.

(** The value under a key of a row or of a decoded JSON object. *)
Definition lookup {V : Type} (k : string) (kv : list (string * V))
  : option V :=
  match find (fun p => String.eqb (fst p) k) kv with
  | Some p => Some (snd p)
  | None => None
  end.

(** [row[k]]. *)
Definition getitem {F : Type} (row : series F) (k : string) : res (pyval F) :=
  match lookup k row with
  | Some v => Ret v
  | None => Raise (KeyError k)
  end.

(** [row.get(k, default)]. *)
Definition get_default {F : Type} (row : series F) (k : string)
                       (default : pyval F) : pyval F :=
  match lookup k row with
  | Some v => v
  | None => default
  end.

(** [amount is None or amount == ""]. *)
Definition none_or_empty {F : Type} (v : pyval F) : bool :=
  match v with
  | PNone => true
  | PStr s => String.eqb s ""
  | _ => false
  end.

(** [len(d)]; [None] stands for Python's None. *)
Definition json_len {F : Type} (d : option (json F)) : res Z :=
  match d with
  | Some (JStr s) => Ret (Z.of_nat (String.length s))
  | Some (JArr items) => Ret (Z.of_nat (List.length items))
  | Some (JObj members) => Ret (Z.of_nat (List.length members))
  | _ => Raise TypeError
  end.

(** [obj.get(k)]: only a dict has the method. *)
Definition json_get {F : Type} (obj : json F) (k : string)
  : res (option (json F)) :=
  match obj with
  | JObj members => Ret (lookup k members)
  | _ => Raise AttributeError
  end.

(** [df.empty]: no row, or no column. *)
Definition frame_empty {F : Type} (df : frame F) : bool :=
  match df with
  | [] => true
  | [] :: _ => true
  | _ => false
  end.

Fixpoint set_item {F : Type} (k : string) (v : pyval F) (row : series F)
  : series F :=
  match row with
  | (k', v') :: rest =>
      if String.eqb k' k then (k', v) :: rest
      else (k', v') :: set_item k v rest
  | [] => [(k, v)]
  end.

(** [df.iloc[0]] and [df.iloc[-1]]. *)
Definition iloc_first {F : Type} (df : frame F) : res (series F) :=
  match df with
  | row :: _ => Ret row
  | [] => Raise IndexError
  end.

Definition iloc_last {F : Type} (df : frame F) : res (series F) :=
  match rev df with
  | row :: _ => Ret row
  | [] => Raise IndexError
  end.

Definition str_of_Z (n : Z) : string := NilEmpty.string_of_int (Z.to_int n).

(** *** The monad of a run: state passing with exceptions *)

Definition M (F A : Type) : Type := state F -> res A * state F.

Definition ret {F A : Type} (a : A) : M F A := fun st => (Ret a, st).

Definition raise {F A : Type} (e : exn) : M F A := fun st => (Raise e, st).

Definition bind {F A B : Type} (m : M F A) (k : A -> M F B) : M F B :=
  fun st =>
    match m st with
    | (Ret a, st') => k a st'
    | (Raise e, st') => (Raise e, st')
    | (OutOfFuel, st') => (OutOfFuel, st')
    end.

Notation "x <- m ;; k" := (bind m (fun x => k))
  (at level 61, m at next level, right associativity).
Notation "m ;; k" := (bind m (fun _ => k))
  (at level 61, right associativity).

Definition lift {F A : Type} (r : res A) : M F A := fun st => (r, st).

(** [try: body except Exception: handler]. *)
Definition try_except {F A : Type} (body : M F A) (handler : exn -> M F A)
  : M F A :=
  fun st =>
    match body st with
    | (Raise e, st') => handler e st'
    | r => r
    end.

Definition emit {F : Type} (e : event F) : M F unit :=
  fun st => (Ret tt, mkstate (files st) (ticks st) (trace st ++ [e])).

Definition print {F : Type} (m : msg F) : M F unit := emit (EvPrint m).

Definition write_file (path content : string) (fs : string -> option string)
  : string -> option string :=
  fun p => if String.eqb p path then Some content else fs p.

(** [open(path, "r")] and reading it all. *)
Definition open_read {F : Type} (path : string) : M F string :=
  fun st =>
    let st' := mkstate (files st) (ticks st) (trace st ++ [EvRead path]) in
    match files st path with
    | Some text => (Ret text, st')
    | None => (Raise FileNotFoundError, st')
    end.

(** [open(path, "w")] and writing [content]. *)
Definition open_write {F : Type} (path content : string) : M F unit :=
  fun st =>
    (Ret tt,
     mkstate (write_file path content (files st)) (ticks st)
             (trace st ++ [EvWrite path content])).

(** ** Floats

    Floats are kept abstract: the script converts, multiplies and rounds
    them and nothing below looks inside one. *)

Record PyFloat : Type := {
  float : Type;
  (** [float(n)] of an [int]; [None] is OverflowError. *)
  float_of_int : Z -> option float;
  (** [float(s)] of a [str]; [None] is ValueError. *)
  float_of_str : string -> option float;
  (** [int(x)]: truncation, ValueError on NaN, OverflowError on infinities. *)
  int_of_float : float -> exn + Z;
  (** [x * y]. *)
  fmul : float -> float -> float;
  (** [round(x, 2)]. *)
  round2 : float -> float;
  (** [x == 0]. *)
  float_is_zero : float -> bool;
  (** [repr(x)]. *)
  float_repr : float -> string
}.

(** ** Python strings

    One [ascii] stands for one character, so the strings covered are those
    of code points below 256. *)

Definition in_range (lo hi : N) (c : ascii) : bool :=
  (lo <=? N_of_ascii c)%N && (N_of_ascii c <=? hi)%N.

(** The characters [str.strip()] removes. *)
Definition is_space (c : ascii) : bool :=
  in_range 9 13 c || in_range 28 32 c
  || (N_of_ascii c =? 133)%N || (N_of_ascii c =? 160)%N.

Fixpoint lstrip (s : string) : string :=
  match s with
  | String c s' => if is_space c then lstrip s' else s
  | EmptyString => EmptyString
  end.

Fixpoint rstrip (s : string) : string :=
  match s with
  | String c s' =>
      match rstrip s' with
      | EmptyString => if is_space c then EmptyString else String c EmptyString
      | r => String c r
      end
  | EmptyString => EmptyString
  end.

Definition strip (s : string) : string := rstrip (lstrip s).

Definition lower_char (c : ascii) : ascii :=
  if in_range 65 90 c || in_range 192 214 c || in_range 216 222 c
  then ascii_of_N (N_of_ascii c + 32)
  else c.

Fixpoint lower (s : string) : string :=
  match s with
  | String c s' => String (lower_char c) (lower s')
  | EmptyString => EmptyString
  end.

(** [s.replace(old, new)] for a one-character [old]. *)
Fixpoint replace_char (old : ascii) (new : string) (s : string) : string :=
  match s with
  | String c s' =>
      if Ascii.eqb c old then new ++ replace_char old new s'
      else String c (replace_char old new s')
  | EmptyString => EmptyString
  end.

(** [s[i:j]] for [0 <= i <= j]. *)
Definition slice (i j : nat) (s : string) : string := substring i (j - i) s.

(** ** The script *)

Definition res_bind {A B : Type} (r : res A) (k : A -> res B) : res B :=
  match r with
  | Ret a => k a
  | Raise e => Raise e
  | OutOfFuel => OutOfFuel
  end.

Notation "'let?' x ':=' r 'in' k" := (res_bind r (fun x => k))
  (at level 10, x name, r at level 100, k at level 200).

Definition TS_CODE : string := "02618.HK".
Definition OUT_FILE : string := "jd-logistics-latest.json".

(** The loop of [prev_weekday]: one unit of fuel per turn. *)
Fixpoint prev_weekday_loop (fuel : nat) (d : date) : res date :=
  if 5 <=? weekday d then
    match fuel with
    | O => OutOfFuel
    | S fuel' =>
        let? d' := date_sub_days d 1 in
        prev_weekday_loop fuel' d'
    end
  else Ret d.

(** Every turn lowers the ordinal by one and the subtraction raises once
    the ordinal would leave the calendar, so the ordinal, plus one, bounds
    the number of turns. *)
Definition prev_weekday (d : date) : res date :=
  prev_weekday_loop (S (Z.to_nat (toordinal d))) d.

Definition expected_trade_date_bj (now_bj : datetime) : res string :=
  let today := date_of now_bj in
  if 5 <=? weekday today then
    let? d := prev_weekday today in
    Ret (strftime_Ymd d)
  else
    let cutoff := mkdatetime (date_of now_bj) 17 30 0 0 in
    if datetime_ge now_bj cutoff then Ret (strftime_Ymd today)
    else
      let? yesterday := date_sub_days today 1 in
      let? d := prev_weekday yesterday in
      Ret (strftime_Ymd d).

Section Script.

Variable FL : PyFloat.

#[local] Abbreviation F := (float FL).

(** [json.load] of a file's text (any failure of reading or decoding is an
    exception), [json.dump(data, f, ensure_ascii=False, indent=2)] as the
    text it writes, and [df.sort_values(column)]. *)
Variable json_load : string -> exn + json F.
Variable json_dump : snapshot F -> string.
Variable sort_values : string -> frame F -> frame F.

(** [float(v)]. *)
Definition py_float (v : pyval F) : res F :=
  match v with
  | PFloat x => Ret x
  | PInt n =>
      match float_of_int FL n with
      | Some x => Ret x
      | None => Raise OverflowError
      end
  | PStr s =>
      match float_of_str FL s with
      | Some x => Ret x
      | None => Raise ValueError
      end
  | PNone => Raise TypeError
  end.

(** [int(x)] of a float. *)
Definition py_int (x : F) : res Z :=
  match int_of_float FL x with
  | inr n => Ret n
  | inl e => Raise e
  end.

(** [x * n] with [n] an [int]: the int is converted first. *)
Definition fmul_int (x : F) (n : Z) : res F :=
  match float_of_int FL n with
  | Some y => Ret (fmul FL x y)
  | None => Raise OverflowError
  end.

(** [str(v)]. *)
Definition py_str (v : pyval F) : string :=
  match v with
  | PNone => "None"
  | PStr s => s
  | PInt n => str_of_Z n
  | PFloat x => float_repr FL x
  end.

(** [not d] on a decoded JSON value; [None] stands for Python's None. *)
Definition json_not (d : option (json F)) : bool :=
  match d with
  | None | Some JNull => true
  | Some (JBool b) => negb b
  | Some (JInt n) => n =? 0
  | Some (JFloat x) => float_is_zero FL x
  | Some (JStr s) => String.eqb s ""
  | Some (JArr items) => match items with [] => true | _ => false end
  | Some (JObj members) => match members with [] => true | _ => false end
  end.

Definition row_to_json (latest : series F) (ts_code : string)
  : res (snapshot F) :=
  let? open_v := getitem latest "open" in
  let? open_p := py_float open_v in
  let? high_v := getitem latest "high" in
  let? high_p := py_float high_v in
  let? low_v := getitem latest "low" in
  let? low_p := py_float low_v in
  let? close_v := getitem latest "close" in
  let? close_p := py_float close_v in
  let vol := get_default latest "vol" (PInt 0) in
  let amount := get_default latest "amount" PNone in
  let? volume_i :=
    match vol with
    | PNone => Ret 0
    | _ => let? x := py_float vol in py_int x
    end in
  let? amount_f :=
    if none_or_empty amount then
      let? product := fmul_int close_p volume_i in
      Ret (round2 FL product)
    else py_float amount in
  let? trade_date_v := getitem latest "trade_date" in
  let trade_date := py_str trade_date_v in
  let date_fmt :=
    slice 0 4 trade_date ++ "-" ++ slice 4 6 trade_date ++ "-"
    ++ slice 6 8 trade_date in
  Ret (mksnapshot ts_code date_fmt
         (round2 FL open_p) (round2 FL high_p) (round2 FL low_p)
         (round2 FL close_p) volume_i (round2 FL amount_f)).

Variable W : world F.

Definition read_clock : M F datetime :=
  fun st =>
    (Ret (utcnow W (ticks st)), mkstate (files st) (S (ticks st)) (trace st)).

Definition call_hk_daily (ts_code start_date end_date : string)
  : M F (option (frame F)) :=
  emit (EvQuery ts_code start_date end_date) ;;
  match hk_daily W ts_code start_date end_date with
  | inr df => ret df
  | inl e => raise e
  end.

Definition bj_now : M F datetime :=
  t <- read_clock ;;
  lift (datetime_add_hours t 8).

Definition load_existing_date : M F (option string) :=
  try_except
    (text <- open_read OUT_FILE ;;
     obj <- lift (match json_load text with
                  | inr v => Ret v
                  | inl e => Raise e
                  end) ;;
     d <- lift (json_get obj "date") ;;
     if json_not d then ret None
     else
       n <- lift (json_len d) ;;
       if negb (n =? 10) then ret None
       else
         match d with
         | Some (JStr s) => ret (Some (replace_char "-" "" s))
         | _ => raise AttributeError
         end)
    (fun e =>
       match e with
       | FileNotFoundError => ret None
       | _ => ret None
       end).

(** [df[col] = df[col].astype(str)]. *)
Fixpoint astype_str (col : string) (df : frame F) : res (frame F) :=
  match df with
  | [] => Ret []
  | row :: rest =>
      let? v := getitem row col in
      let? rest' := astype_str col rest in
      Ret (set_item col (PStr (py_str v)) row :: rest')
  end.

Definition fetch_hk_daily_latest (ts_code : string) (days_back : Z)
  : M F (option (frame F) * option (series F)) :=
  now_bj_dt <- bj_now ;;
  let end_date := strftime_Ymd (date_of now_bj_dt) in
  start <- lift (date_sub_days (date_of now_bj_dt) days_back) ;;
  let start_date := strftime_Ymd start in
  df <- call_hk_daily ts_code start_date end_date ;;
  print (InfoTsCode ts_code) ;;
  print (InfoRequestRange start_date end_date) ;;
  match df with
  | None => print WarnEmptyFrame ;; ret (None, None)
  | Some df =>
      if frame_empty df then print WarnEmptyFrame ;; ret (None, None)
      else
        df <- lift (astype_str "trade_date" df) ;;
        let df := sort_values "trade_date" df in
        first <- lift (iloc_first df) ;;
        min_d <- lift (getitem first "trade_date") ;;
        last <- lift (iloc_last df) ;;
        max_d <- lift (getitem last "trade_date") ;;
        print (InfoReturned (Z.of_nat (List.length df))
                            (py_str min_d) (py_str max_d)) ;;
        latest <- lift (iloc_last df) ;;
        ret (Some df, Some latest)
  end.

(** [not token] for the result of [os.getenv]. *)
Definition falsy (s : option string) : bool :=
  match s with
  | None => true
  | Some s => String.eqb s ""
  end.

(** [os.getenv("FORCE_UPDATE", "").strip().lower() in ("1", "true", "yes")]. *)
Definition force_update : bool :=
  let v := match getenv W "FORCE_UPDATE" with Some s => s | None => "" end in
  existsb (String.eqb (lower (strip v))) ["1"; "true"; "yes"].

(** [existing_td == latest_td], where [existing_td] may be None. *)
Definition eq_opt (a : option string) (b : string) : bool :=
  match a with
  | Some s => String.eqb s b
  | None => false
  end.

Definition main : M F unit :=
  let token := getenv W "HK_MARKET_API_TOKEN" in
  if falsy token then
    raise (RuntimeError "Missing HK_MARKET_API_TOKEN in environment")
  else
    emit (EvSetToken (match token with Some s => s | None => "" end)) ;;
    emit EvProApi ;;
    now_bj_dt <- bj_now ;;
    expected_td <- lift (expected_trade_date_bj now_bj_dt) ;;
    print (InfoNow now_bj_dt expected_td) ;;
    fetched <- fetch_hk_daily_latest TS_CODE 30 ;;
    match snd fetched with
    | None => print InfoNoData ;; ret tt
    | Some latest =>
        latest_v <- lift (getitem latest "trade_date") ;;
        let latest_td := py_str latest_v in
        print (InfoLatest latest_td) ;;
        let force := force_update in
        if String.ltb latest_td expected_td && negb force then
          print InfoNotUpdated ;;
          print (InfoSkip latest_td expected_td) ;;
          ret tt
        else
          (if String.ltb expected_td latest_td then print WarnLater
           else ret tt) ;;
          data <- lift (row_to_json latest TS_CODE) ;;
          existing_td <- load_existing_date ;;
          if eq_opt existing_td latest_td && negb force then
            print (InfoNoChanges latest_td) ;;
            ret tt
          else
            open_write OUT_FILE (json_dump data) ;;
            print (OkUpdated data) ;;
            ret tt
    end.

End Script.

Arguments py_float {FL}.
Arguments py_int {FL}.
Arguments fmul_int {FL}.
Arguments py_str {FL}.
Arguments json_not {FL}.
Arguments force_update {FL}.

(** ** The calendar inside one year

    The last steps of [_ord2ymd], from the day of the year (counted from
    0) and the leap flag to the month and the day; and the two facts about
    it that are checked by evaluation, over the days of a year and over
    the months and days. *)

Definition month_day (n : Z) (leapyear : bool) : Z * Z :=
  let month := Z.shiftr (n + 50) 5 in
  let preceding :=
    DAYS_BEFORE_MONTH month + (if (month >? 2) && leapyear then 1 else 0) in
  if preceding >? n then
    let month := month - 1 in
    let preceding :=
      preceding
      - (DAYS_IN_MONTH month + (if (month =? 2) && leapyear then 1 else 0)) in
    (month, n - preceding + 1)
  else (month, n - preceding + 1).

(** [_days_in_month] and [_days_before_month] by the leap flag of the
    year. *)
Definition month_length (leapyear : bool) (m : Z) : Z :=
  if (m =? 2) && leapyear then 29 else DAYS_IN_MONTH m.

Definition days_before (leapyear : bool) (m : Z) : Z :=
  DAYS_BEFORE_MONTH m + (if (m >? 2) && leapyear then 1 else 0).

(** [f] holds on the [2 ^ depth] integers from [lo] on. *)
Fixpoint all_in (depth : nat) (lo : Z) (f : Z -> bool) : bool :=
  match depth with
  | O => f lo
  | S k => all_in k lo f && all_in k (lo + 2 ^ Z.of_nat k) f
  end.

(** Day [n] of a year falls in a month and on a day of it, and counts
    back to [n]. *)
Definition month_day_ok (leapyear : bool) (n : Z) : bool :=
  if (0 <=? n) && (n <? 365) then
    let '(m, d) := month_day n leapyear in
    (1 <=? m) && (m <=? 12) && (1 <=? d) && (d <=? month_length leapyear m)
    && (days_before leapyear m + d =? n + 1)
  else true.

(** A month and a day of it count to a day of the year that gives them
    back; the one day beyond 364 is the 31st of December of a leap year. *)
Definition day_of_year_ok (leapyear : bool) (m d : Z) : bool :=
  if (1 <=? m) && (m <=? 12) && (1 <=? d) && (d <=? month_length leapyear m)
  then
    let n := days_before leapyear m + d - 1 in
    (0 <=? n)
    && (if n <? 365
        then (let '(m', d') := month_day n leapyear in (m' =? m) && (d' =? d))
        else leapyear && (n =? 365) && (m =? 12) && (d =? 31))
  else true.

(** [%Y] writes the year [y] as Python writes the integer. *)
Definition year_digits_ok (y : Z) : bool :=
  if (1 <=? y) && (y <=? 9999) then String.eqb (year_digits y) (str_of_Z y)
  else true.

(** ** Reading the claims

    A time of day at or after the 17:30 cutoff, and the date a string of
    the form YYYYMMDD denotes. *)

Definition at_or_after_1730 (t : datetime) : bool :=
  17 * 60 + 30 <=? hour t * 60 + minute t.

(** The date the estimator's answer shows, in closed form: the Friday
    before on a weekend, today from the cutoff on, and otherwise one day
    back, or three on a Monday. *)
Definition expected_date (now_bj : datetime) : date :=
  let today := date_of now_bj in
  if 5 <=? weekday today then
    fromordinal (toordinal today - (weekday today - 4))
  else if at_or_after_1730 now_bj then today
  else fromordinal (toordinal today - (if weekday today =? 0 then 3 else 1)).

(** A date written YYYYMMDD: the year on four digits, month and day on
    two. *)
Definition yyyymmdd (d : date) : string :=
  pad4 (year d) ++ pad2 (month d) ++ pad2 (day d).

Definition digit_value (c : ascii) : option Z :=
  let n := Z.of_N (N_of_ascii c) in
  if (48 <=? n) && (n <=? 57) then Some (n - 48) else None.

Fixpoint parse_digits (acc : Z) (s : string) : option Z :=
  match s with
  | EmptyString => Some acc
  | String c s' =>
      match digit_value c with
      | Some v => parse_digits (10 * acc + v) s'
      | None => None
      end
  end.

(** Eight digits: four of the year, two of the month, two of the day. *)
Definition parse_Ymd (s : string) : option date :=
  if Nat.eqb (String.length s) 8 then
    match parse_digits 0 (slice 0 4 s), parse_digits 0 (slice 4 6 s),
          parse_digits 0 (slice 6 8 s) with
    | Some y, Some m, Some d => Some (mkdate y m d)
    | _, _, _ => None
    end
  else None.

Section Observations.

Variable F : Type.

(** The row provides no amount, as the script tests it: there is no such
    column, or its cell is None or the empty string. *)
Definition no_amount (row : series F) : Prop :=
  lookup "amount" row = None
  \/ lookup "amount" row = Some PNone
  \/ lookup "amount" row = Some (PStr "").

(** A run starts with the files as they are, the clock unread and nothing
    done yet. *)
Definition initial (fs : string -> option string) : state F :=
  mkstate fs 0 [].

(** No event of the trace writes a file. *)
Definition no_write (tr : list (event F)) : Prop :=
  forall path content, ~ In (EvWrite path content) tr.

(** What [fetch_hk_daily_latest] may do: query the provider and print its
    own four lines. *)
Definition fetch_event (e : event F) : Prop :=
  match e with
  | EvQuery _ _ _ => True
  | EvPrint (InfoTsCode _) => True
  | EvPrint (InfoRequestRange _ _) => True
  | EvPrint WarnEmptyFrame => True
  | EvPrint (InfoReturned _ _ _) => True
  | _ => False
  end.

(** The provider's answer is no data: [None] or an empty frame. *)
Definition no_data (answer : exn + option (frame F)) : Prop :=
  match answer with
  | inr None => True
  | inr (Some df) => frame_empty df = true
  | inl _ => False
  end.

(** The text of the output file gives no date: it does not decode, or
    what it decodes to has no string of 10 characters under "date". *)
Definition no_stored_date (json_load : string -> exn + json F)
                          (text : string) : Prop :=
  match json_load text with
  | inl _ => True
  | inr (JObj members) =>
      match lookup "date" members with
      | Some (JStr s) => String.length s <> 10%nat
      | _ => True
      end
  | inr _ => True
  end.

(** The date a text of the output file records, as YYYYMMDD. *)
Definition stored_date (json_load : string -> exn + json F)
                       (text : string) : option string :=
  match json_load text with
  | inr (JObj members) =>
      match lookup "date" members with
      | Some (JStr s) =>
          if Nat.eqb (String.length s) 10 then Some (replace_char "-" "" s)
          else None
      | _ => None
      end
  | _ => None
  end.

End Observations.

Arguments no_amount {F}.
Arguments stored_date {F}.
Arguments initial {F}.
Arguments no_write {F}.
Arguments fetch_event {F}.
Arguments no_data {F}.
Arguments no_stored_date {F}.

(** ** Reading the further properties *)

(** Seconds from the start of the calendar to a time. *)
Definition seconds_of (t : datetime) : Z :=
  toordinal (date_of t) * 86400 + hour t * 3600 + minute t * 60 + second t.

(** A trade date YYYYMMDD written YYYY-MM-DD, as [row_to_json] does. *)
Definition dashed (trade_date : string) : string :=
  slice 0 4 trade_date ++ "-" ++ slice 4 6 trade_date ++ "-"
  ++ slice 6 8 trade_date.

Fixpoint no_dash (s : string) : bool :=
  match s with
  | String c s' => negb (Ascii.eqb c "-") && no_dash s'
  | EmptyString => true
  end.

Fixpoint all_space (s : string) : bool :=
  match s with
  | String c s' => is_space c && all_space s'
  | EmptyString => true
  end.

(** The string a row shows in a column, and the order of rows by it. *)
Definition column_str {FL : PyFloat} (col : string)
                      (row : series (float FL)) : option string :=
  match lookup col row with
  | Some v => Some (py_str v)
  | None => None
  end.

Definition row_le {FL : PyFloat} (col : string)
                  (r1 r2 : series (float FL)) : Prop :=
  match column_str col r1, column_str col r2 with
  | Some s1, Some s2 => String.leb s1 s2 = true
  | _, _ => False
  end.

(** What [df.sort_values(col)] gives on [df]: the same rows, in the order
    of the column. *)
Definition sorts {FL : PyFloat} (col : string)
                 (sorted df : frame (float FL)) : Prop :=
  Permutation sorted df /\ StronglySorted (row_le col) sorted.
(** The date the output file records, as [load_existing_date] reads it. *)
Definition recorded {F : Type} (json_load : string -> exn + json F)
           (fs : string -> option string) : option string :=
  match fs OUT_FILE with
  | Some text => stored_date json_load text
  | None => None
  end.

(** ** A concrete instance

    Floats as whole thousandths, a decoder and an encoder for the one-field
    documents below, a sort that keeps the order, and a world built from a
    credential, one clock time and one answer of the provider. *)

Module Sample.

Definition milli : PyFloat := {|
  float := Z;
  float_of_int := fun n => Some (1000 * n);
  float_of_str := fun _ => None;
  int_of_float := fun x => inr (Z.quot x 1000);
  fmul := fun x y => x * y / 1000;
  round2 := fun x => 10 * ((x + 5) / 10);
  float_is_zero := fun x => x =? 0;
  float_repr := fun x => str_of_Z x
|}.

(** Floats with a NaN: [None] is NaN and [Some n] is [n] thousandths.
    NaN goes through products and rounding, is not zero, and [int] of it
    raises ValueError. *)
Definition milli_nan : PyFloat := {|
  float := option Z;
  float_of_int := fun n => Some (Some (1000 * n));
  float_of_str := fun _ => None;
  int_of_float := fun x =>
    match x with
    | Some n => inr (Z.quot n 1000)
    | None => inl ValueError
    end;
  fmul := fun x y =>
    match x, y with
    | Some a, Some b => Some (a * b / 1000)
    | _, _ => None
    end;
  round2 := fun x =>
    match x with
    | Some n => Some (10 * ((n + 5) / 10))
    | None => None
    end;
  float_is_zero := fun x =>
    match x with
    | Some n => n =? 0
    | None => false
    end;
  float_repr := fun x =>
    match x with
    | Some n => str_of_Z n
    | None => "nan"
    end
|}.

Definition quoted (s : string) : string :=
  String (ascii_of_N 34) (s ++ String (ascii_of_N 34) "").

Definition document (date_text : string) : string :=
  "{" ++ quoted "date" ++ ": " ++ quoted date_text ++ "}".

Definition json_dump (data : snapshot Z) : string :=
  document (snap_date data).

Definition json_load (text : string) : exn + json Z :=
  let n := String.length text in
  let inner := substring 10 (n - 12) text in
  if String.eqb text (document inner)
  then inr (JObj [("date", JStr inner)])
  else inl JSONDecodeError.

Definition sort_values (column : string) (df : frame Z) : frame Z := df.

Definition bar (trade_date : string) : series Z :=
  [("trade_date", PStr trade_date);
   ("open", PFloat 10500);
   ("high", PFloat 10800);
   ("low", PFloat 10400);
   ("close", PFloat 10755);
   ("vol", PFloat 2000000)].

(** The same bar as pandas gives it when the provider sent no amount:
    the cell of the column holds NaN. *)
Definition nan_bar (trade_date : string) : series (option Z) :=
  [("trade_date", PStr trade_date);
   ("open", PFloat (Some 10500));
   ("high", PFloat (Some 10800));
   ("low", PFloat (Some 10400));
   ("close", PFloat (Some 10755));
   ("vol", PFloat (Some 2000000));
   ("amount", PFloat None)].

Definition world_of (token : option string) (utc : datetime)
                    (answer : exn + option (frame Z)) : world Z := {|
  getenv := fun name =>
    if String.eqb name "HK_MARKET_API_TOKEN" then token else None;
  utcnow := fun _ => utc;
  hk_daily := fun _ _ _ => answer
|}.

Definition only_output (text : string) : string -> option string :=
  fun path => if String.eqb path OUT_FILE then Some text else None.

Definition run (w : world Z) (fs : string -> option string)
  : res unit * state Z :=
  main milli json_load json_dump sort_values w (initial fs).

End Sample.

(** ** Properties of the calendar *)

#[local] Ltac Zify.zify_post_hook ::= Z.to_euclidean_division_equations.

Lemma all_in_spec (depth : nat) :
  forall lo f, all_in depth lo f = true ->
  forall i, lo <= i < lo + 2 ^ Z.of_nat depth -> f i = true.
Proof.
  induction depth as [|k IH]; intros lo f H i Hi.
  - simpl in *. replace i with lo by lia. exact H.
  - cbn [all_in] in H. apply andb_true_iff in H. destruct H as [H1 H2].
    rewrite Nat2Z.inj_succ, Z.pow_succ_r in Hi by lia.
    destruct (Z_lt_ge_dec i (lo + 2 ^ Z.of_nat k)) as [Hlt|Hge].
    + apply (IH lo f H1). lia.
    + apply (IH _ f H2). lia.
Qed.

Lemma month_days_checked :
  forallb (fun leap => all_in 9 0 (month_day_ok leap)) [true; false] = true.
Proof. vm_cast_no_check (eq_refl true). Qed.

Lemma days_of_year_checked :
  forallb (fun leap => all_in 4 0 (fun m => all_in 5 0 (day_of_year_ok leap m)))
          [true; false]
  = true.
Proof. vm_cast_no_check (eq_refl true). Qed.

Lemma month_day_spec (leap : bool) (n : Z) :
  0 <= n < 365 ->
  exists m d : Z,
    month_day n leap = (m, d)
    /\ 1 <= m <= 12 /\ 1 <= d <= month_length leap m
    /\ days_before leap m + d = n + 1.
Proof.
  intros Hn.
  assert (C : month_day_ok leap n = true).
  { pose proof month_days_checked as H. cbn [forallb] in H.
    apply andb_true_iff in H. destruct H as [Ht H].
    apply andb_true_iff in H. destruct H as [Hf _].
    destruct leap;
      [apply (all_in_spec 9 0 _ Ht) | apply (all_in_spec 9 0 _ Hf)];
      change (2 ^ Z.of_nat 9) with 512; lia. }
  unfold month_day_ok in C.
  replace ((0 <=? n) && (n <? 365)) with true in C
    by (symmetry; apply andb_true_iff; split;
        [apply Z.leb_le | apply Z.ltb_lt]; lia).
  destruct (month_day n leap) as [m d]. exists m, d.
  rewrite !andb_true_iff, !Z.leb_le, Z.eqb_eq in C.
  split; [reflexivity | lia].
Qed.

Lemma day_of_year_spec (leap : bool) (m d : Z) :
  1 <= m <= 12 -> 1 <= d <= month_length leap m ->
  0 <= days_before leap m + d - 1 <= 365
  /\ (days_before leap m + d - 1 < 365 ->
      month_day (days_before leap m + d - 1) leap = (m, d))
  /\ (days_before leap m + d - 1 = 365 -> leap = true /\ m = 12 /\ d = 31).
Proof.
  intros Hm Hd.
  assert (H31 : month_length leap m <= 31).
  { unfold month_length, DAYS_IN_MONTH.
    assert (Hc : m = 1 \/ m = 2 \/ m = 3 \/ m = 4 \/ m = 5 \/ m = 6
                 \/ m = 7 \/ m = 8 \/ m = 9 \/ m = 10 \/ m = 11 \/ m = 12)
      by lia.
    repeat (destruct Hc as [-> | Hc]); try subst m;
      destruct leap; simpl; lia. }
  assert (C : day_of_year_ok leap m d = true).
  { pose proof days_of_year_checked as H. cbn [forallb] in H.
    apply andb_true_iff in H. destruct H as [Ht H].
    apply andb_true_iff in H. destruct H as [Hf _].
    destruct leap.
    - pose proof (all_in_spec 4 0 _ Ht m
                    ltac:(change (2 ^ Z.of_nat 4) with 16; lia)) as H1.
      apply (all_in_spec 5 0 _ H1). change (2 ^ Z.of_nat 5) with 32. lia.
    - pose proof (all_in_spec 4 0 _ Hf m
                    ltac:(change (2 ^ Z.of_nat 4) with 16; lia)) as H1.
      apply (all_in_spec 5 0 _ H1). change (2 ^ Z.of_nat 5) with 32. lia. }
  unfold day_of_year_ok in C.
  replace ((1 <=? m) && (m <=? 12) && (1 <=? d) && (d <=? month_length leap m))
    with true in C
    by (symmetry; repeat (apply andb_true_iff; split); apply Z.leb_le; lia).
  cbv zeta in C. apply andb_true_iff in C. destruct C as [C0 C].
  apply Z.leb_le in C0.
  destruct (days_before leap m + d - 1 <? 365) eqn:E.
  - apply Z.ltb_lt in E.
    destruct (month_day (days_before leap m + d - 1) leap) as [m' d'].
    rewrite andb_true_iff, !Z.eqb_eq in C. destruct C as [-> ->].
    repeat split; try lia.
  - apply Z.ltb_ge in E.
    rewrite !andb_true_iff, !Z.eqb_eq in C.
    destruct C as [[[Hl Hn] Hm'] Hd'].
    repeat split; try lia; assumption.
Qed.

(** A year by its place in the 400, 100 and 4 year cycles. *)
Lemma year_decomp (a b c e : Z) :
  0 <= b <= 3 -> 0 <= c <= 24 -> 0 <= e <= 3 ->
  days_before_year (400 * a + 100 * b + 4 * c + e + 1)
  = DI400Y * a + DI100Y * b + DI4Y * c + 365 * e
  /\ is_leap (400 * a + 100 * b + 4 * c + e + 1)
     = (e =? 3) && (negb (c =? 24) || (b =? 3)).
Proof.
  intros Hb Hc He. split.
  - unfold days_before_year, DI400Y, DI100Y, DI4Y. cbv zeta. lia.
  - unfold is_leap.
    destruct (Z.eqb_spec ((400 * a + 100 * b + 4 * c + e + 1) mod 4) 0);
      destruct (Z.eqb_spec ((400 * a + 100 * b + 4 * c + e + 1) mod 100) 0);
      destruct (Z.eqb_spec ((400 * a + 100 * b + 4 * c + e + 1) mod 400) 0);
      destruct (Z.eqb_spec e 3); destruct (Z.eqb_spec c 24);
      destruct (Z.eqb_spec b 3); try reflexivity; lia.
Qed.

Lemma days_in_month_length (y m : Z) :
  days_in_month y m = month_length (is_leap y) m.
Proof. reflexivity. Qed.

Lemma days_before_month_eq (y m : Z) :
  days_before_month y m = days_before (is_leap y) m.
Proof. reflexivity. Qed.

(** [_ord2ymd] by its steps. *)
Lemma ord2ymd_eq (n : Z) :
  ord2ymd n
  = let n0 := n - 1 in
    let a := n0 / DI400Y in
    let b := n0 mod DI400Y / DI100Y in
    let c := n0 mod DI400Y mod DI100Y / DI4Y in
    let e := n0 mod DI400Y mod DI100Y mod DI4Y / 365 in
    let f := n0 mod DI400Y mod DI100Y mod DI4Y mod 365 in
    let y := a * 400 + 1 + b * 100 + c * 4 + e in
    if (e =? 4) || (b =? 4) then (y - 1, 12, 31)
    else
      let '(m, d) := month_day f ((e =? 3) && (negb (c =? 24) || (b =? 3))) in
      (y, m, d).
Proof.
  unfold ord2ymd, month_day. cbv zeta.
  destruct (_ || _); [reflexivity|].
  destruct (_ >? _); reflexivity.
Qed.

(** The date of an ordinal is a date and has that ordinal. *)
Lemma ord2ymd_spec (n : Z) :
  1 <= n ->
  exists y m d : Z,
    ord2ymd n = (y, m, d)
    /\ 1 <= y /\ 1 <= m <= 12 /\ 1 <= d <= days_in_month y m
    /\ ymd2ord y m d = n.
Proof.
  intros Hn. rewrite ord2ymd_eq. cbv zeta.
  unfold DI400Y, DI100Y, DI4Y.
  pose proof (Z.div_mod (n - 1) 146097 ltac:(lia)) as E1.
  pose proof (Z.mod_pos_bound (n - 1) 146097 ltac:(lia)) as B1.
  set (a := (n - 1) / 146097) in *. set (r1 := (n - 1) mod 146097) in *.
  pose proof (Z.div_mod r1 36524 ltac:(lia)) as E2.
  pose proof (Z.mod_pos_bound r1 36524 ltac:(lia)) as B2.
  set (b := r1 / 36524) in *. set (r2 := r1 mod 36524) in *.
  pose proof (Z.div_mod r2 1461 ltac:(lia)) as E3.
  pose proof (Z.mod_pos_bound r2 1461 ltac:(lia)) as B3.
  set (c := r2 / 1461) in *. set (r3 := r2 mod 1461) in *.
  pose proof (Z.div_mod r3 365 ltac:(lia)) as E4.
  pose proof (Z.mod_pos_bound r3 365 ltac:(lia)) as B4.
  set (e := r3 / 365) in *. set (f := r3 mod 365) in *.
  clearbody a r1 b r2 c r3 e f.
  assert (Ha : 0 <= a) by lia.
  assert (Hb : 0 <= b <= 4) by lia.
  assert (Hc : 0 <= c <= 24) by lia.
  assert (He : 0 <= e <= 4) by lia.
  destruct (Z.eqb_spec e 4) as [E | E];
    [|destruct (Z.eqb_spec b 4) as [E' | E']]; cbn [orb].
  - (* the last day of a leap year *)
    assert (Hc' : c <= 23) by lia.
    assert (Hb' : b <= 3) by lia.
    destruct (year_decomp a b c 3 ltac:(lia) ltac:(lia) ltac:(lia))
      as [Hdby Hleap].
    replace (400 * a + 100 * b + 4 * c + 3 + 1)
      with (a * 400 + 1 + b * 100 + c * 4 + e - 1) in Hdby, Hleap by lia.
    replace ((3 =? 3) && (negb (c =? 24) || (b =? 3))) with true in Hleap
      by (destruct (Z.eqb_spec c 24); [lia | reflexivity]).
    do 3 eexists. split; [reflexivity|].
    unfold ymd2ord. rewrite days_in_month_length, days_before_month_eq.
    rewrite Hdby, Hleap. unfold DI400Y, DI100Y, DI4Y.
    change (month_length true 12) with 31.
    change (days_before true 12) with 335. lia.
  - (* the last day of a year that 400 divides *)
    assert (Hz : c = 0 /\ e = 0 /\ f = 0) by lia. destruct Hz as (-> & -> & ->).
    destruct (year_decomp a 3 24 3 ltac:(lia) ltac:(lia) ltac:(lia))
      as [Hdby Hleap].
    replace (400 * a + 100 * 3 + 4 * 24 + 3 + 1)
      with (a * 400 + 1 + b * 100 + 0 * 4 + 0 - 1) in Hdby, Hleap by lia.
    change ((3 =? 3) && (negb (24 =? 24) || (3 =? 3))) with true in Hleap.
    do 3 eexists. split; [reflexivity|].
    unfold ymd2ord. rewrite days_in_month_length, days_before_month_eq.
    rewrite Hdby, Hleap. unfold DI400Y, DI100Y, DI4Y.
    change (month_length true 12) with 31.
    change (days_before true 12) with 335. lia.
  - assert (Hb' : b <= 3) by lia. assert (He' : e <= 3) by lia.
    destruct (year_decomp a b c e ltac:(lia) ltac:(lia) ltac:(lia))
      as [Hdby Hleap].
    replace (400 * a + 100 * b + 4 * c + e + 1)
      with (a * 400 + 1 + b * 100 + c * 4 + e) in Hdby, Hleap by lia.
    rewrite <- Hleap.
    destruct (month_day_spec (is_leap (a * 400 + 1 + b * 100 + c * 4 + e)) f B4)
      as (m & d & Hmd & Hm & Hd & Hday).
    rewrite Hmd. exists (a * 400 + 1 + b * 100 + c * 4 + e), m, d.
    split; [reflexivity|].
    unfold ymd2ord. rewrite days_in_month_length, days_before_month_eq.
    rewrite Hdby. unfold DI400Y, DI100Y, DI4Y. lia.
Qed.

Lemma days_before_nonneg (leap : bool) (m : Z) :
  1 <= m <= 12 -> 0 <= days_before leap m.
Proof.
  intros Hm. unfold days_before, DAYS_BEFORE_MONTH.
  assert (Hc : m = 1 \/ m = 2 \/ m = 3 \/ m = 4 \/ m = 5 \/ m = 6 \/ m = 7
               \/ m = 8 \/ m = 9 \/ m = 10 \/ m = 11 \/ m = 12) by lia.
  repeat (destruct Hc as [-> | Hc]); try subst m; destruct leap; simpl; lia.
Qed.

Lemma days_in_month_le_31 (y m : Z) : 1 <= m <= 12 -> days_in_month y m <= 31.
Proof.
  intros Hm. unfold days_in_month.
  assert (Hc : m = 1 \/ m = 2 \/ m = 3 \/ m = 4 \/ m = 5 \/ m = 6 \/ m = 7
               \/ m = 8 \/ m = 9 \/ m = 10 \/ m = 11 \/ m = 12) by lia.
  repeat (destruct Hc as [-> | Hc]); try subst m;
    destruct (is_leap y); unfold DAYS_IN_MONTH; simpl; lia.
Qed.

Lemma valid_date_bounds (d : date) :
  valid_date d = true ->
  1 <= year d <= 9999 /\ 1 <= month d <= 12
  /\ 1 <= day d <= days_in_month (year d) (month d).
Proof.
  unfold valid_date, MINYEAR, MAXYEAR. intros H.
  rewrite !andb_true_iff, !Z.leb_le in H. lia.
Qed.

(** Every ordinal of the calendar is the ordinal of the date it gives. *)
Lemma fromordinal_ok (n : Z) :
  1 <= n <= MAXORDINAL ->
  valid_date (fromordinal n) = true /\ toordinal (fromordinal n) = n.
Proof.
  intros [Hn Hmax]. unfold MAXORDINAL in Hmax.
  destruct (ord2ymd_spec n Hn) as (y & m & d & E & Hy & Hm & Hd & Ho).
  unfold fromordinal, toordinal, valid_date. rewrite E.
  cbn [year month day]. split; [|exact Ho].
  assert (Hy' : y <= 9999).
  { pose proof (days_before_nonneg (is_leap y) m Hm) as Hb.
    unfold ymd2ord in Ho. rewrite days_before_month_eq in Ho.
    unfold days_before_year in Ho. cbv zeta in Ho. lia. }
  unfold MINYEAR, MAXYEAR.
  rewrite !andb_true_iff, !Z.leb_le. lia.
Qed.

Lemma divmod_unique (n k q r : Z) :
  0 <= r < k -> n = k * q + r -> n / k = q /\ n mod k = r.
Proof.
  intros Hr Hn. split; symmetry.
  - apply (Z.div_unique n k q r); [left; exact Hr | exact Hn].
  - apply (Z.mod_unique n k q r); [left; exact Hr | exact Hn].
Qed.

(** Every date has an ordinal of the calendar, which gives the date back. *)
Lemma toordinal_ok (d : date) :
  valid_date d = true ->
  1 <= toordinal d <= MAXORDINAL /\ fromordinal (toordinal d) = d.
Proof.
  intros Hv. pose proof (valid_date_bounds d Hv) as (Hy & Hm & Hd).
  destruct d as [y m dd]. cbn [year month day] in *.
  unfold toordinal, fromordinal, ymd2ord. cbn [year month day].
  rewrite days_in_month_length in Hd. rewrite days_before_month_eq.
  pose proof (Z.div_mod (y - 1) 400 ltac:(lia)) as E1.
  pose proof (Z.mod_pos_bound (y - 1) 400 ltac:(lia)) as B1.
  set (a := (y - 1) / 400) in *. set (s1 := (y - 1) mod 400) in *.
  pose proof (Z.div_mod s1 100 ltac:(lia)) as E2.
  pose proof (Z.mod_pos_bound s1 100 ltac:(lia)) as B2.
  set (b := s1 / 100) in *. set (s2 := s1 mod 100) in *.
  pose proof (Z.div_mod s2 4 ltac:(lia)) as E3.
  pose proof (Z.mod_pos_bound s2 4 ltac:(lia)) as B3.
  set (c := s2 / 4) in *. set (e := s2 mod 4) in *.
  clearbody a s1 b s2 c e.
  assert (Hyd : y = 400 * a + 100 * b + 4 * c + e + 1) by lia.
  assert (Ha : 0 <= a <= 24) by lia.
  assert (Hb : 0 <= b <= 3) by lia.
  assert (Hc : 0 <= c <= 24) by lia.
  destruct (year_decomp a b c e Hb Hc ltac:(lia)) as [Hdby Hleap].
  rewrite <- Hyd in Hdby, Hleap.
  destruct (day_of_year_spec (is_leap y) m dd Hm Hd) as (Hdoy & Hlt & Heq).
  set (doy := days_before (is_leap y) m + dd - 1) in *.
  replace (days_before_year y + days_before (is_leap y) m + dd)
    with (days_before_year y + doy + 1) by (unfold doy; lia).
  rewrite Hdby. unfold DI400Y, DI100Y, DI4Y, MAXORDINAL.
  assert (Hflag : doy = 365 -> e = 3 /\ (c <> 24 \/ b = 3)).
  { intros E. destruct (Heq E) as (Hl & _). rewrite Hl in Hleap.
    symmetry in Hleap. apply andb_true_iff in Hleap.
    destruct Hleap as [He Hcb]. apply Z.eqb_eq in He.
    apply orb_true_iff in Hcb. split; [exact He|].
    destruct Hcb as [Hcb | Hcb];
      [left; apply negb_true_iff, Z.eqb_neq in Hcb; exact Hcb
      | right; apply Z.eqb_eq in Hcb; exact Hcb]. }
  split; [lia|].
  rewrite ord2ymd_eq. cbv zeta. unfold DI400Y, DI100Y, DI4Y.
  replace (146097 * a + 36524 * b + 1461 * c + 365 * e + doy + 1 - 1)
    with (146097 * a + (36524 * b + (1461 * c + (365 * e + doy)))) by lia.
  destruct (Z.eq_dec doy 365) as [E365 | E365].
  - destruct (Heq E365) as (_ & Hm12 & Hd31).
    destruct (Hflag E365) as [He3 Hcb].
    rewrite E365, He3, Hm12, Hd31.
    destruct (Z.eq_dec c 24) as [Hc24 | Hc24].
    + assert (Hb3 : b = 3) by lia. rewrite Hc24, Hb3.
      destruct (divmod_unique (146097 * a + 146096) 146097 a 146096
                  ltac:(lia) ltac:(lia)) as [D1 M1].
      replace (146097 * a + (36524 * 3 + (1461 * 24 + (365 * 3 + 365))))
        with (146097 * a + 146096) by lia.
      rewrite D1, M1.
      change (146096 / 36524) with 4.
      change (146096 mod 36524 mod 1461 / 365 =? 4) with false.
      change (4 =? 4) with true. cbn [orb].
      change (146096 mod 36524 / 1461) with 0.
      change (146096 mod 36524 mod 1461 / 365) with 0.
      f_equal. lia.
    + destruct (divmod_unique (365 * 3 + 365) 365 4 0 ltac:(lia) ltac:(lia))
        as [D4 M4].
      destruct (divmod_unique (1461 * c + (365 * 3 + 365)) 1461 c
                  (365 * 3 + 365) ltac:(lia) ltac:(lia)) as [D3 M3].
      destruct (divmod_unique (36524 * b + (1461 * c + (365 * 3 + 365)))
                  36524 b (1461 * c + (365 * 3 + 365))
                  ltac:(lia) ltac:(lia)) as [D2 M2].
      destruct (divmod_unique
                  (146097 * a + (36524 * b + (1461 * c + (365 * 3 + 365))))
                  146097 a (36524 * b + (1461 * c + (365 * 3 + 365)))
                  ltac:(lia) ltac:(lia)) as [D1 M1].
      rewrite M1, D1, M2, D2, M3, D3, D4.
      change (4 =? 4) with true. cbn [orb].
      f_equal. lia.
  - destruct (divmod_unique (365 * e + doy) 365 e doy ltac:(lia) ltac:(lia))
      as [D4 M4].
    destruct (divmod_unique (1461 * c + (365 * e + doy)) 1461 c
                (365 * e + doy) ltac:(lia) ltac:(lia)) as [D3 M3].
    destruct (divmod_unique (36524 * b + (1461 * c + (365 * e + doy)))
                36524 b (1461 * c + (365 * e + doy))
                ltac:(lia) ltac:(lia)) as [D2 M2].
    destruct (divmod_unique
                (146097 * a + (36524 * b + (1461 * c + (365 * e + doy))))
                146097 a (36524 * b + (1461 * c + (365 * e + doy)))
                ltac:(lia) ltac:(lia)) as [D1 M1].
    rewrite M1, D1, M2, D2, M3, D3, M4, D4.
    replace ((e =? 4) || (b =? 4)) with false
      by (symmetry; apply orb_false_iff; split; apply Z.eqb_neq; lia).
    rewrite <- Hleap, (Hlt ltac:(lia)). f_equal. lia.
Qed.

Example toordinal_2024_01_05 : toordinal (mkdate 2024 1 5) = 738890.
Proof. vm_compute. reflexivity. Qed.

Example fromordinal_last : fromordinal MAXORDINAL = mkdate 9999 12 31.
Proof. vm_compute. reflexivity. Qed.

Example first_day_is_monday : weekday (mkdate 1 1 1) = 0.
Proof. vm_compute. reflexivity. Qed.

Example leap_day_2000 :
  fromordinal (toordinal (mkdate 2000 2 29)) = mkdate 2000 2 29.
Proof. vm_compute. reflexivity. Qed.

Lemma toordinal_inj (a b : date) :
  valid_date a = true -> valid_date b = true ->
  toordinal a = toordinal b -> a = b.
Proof.
  intros Ha Hb E.
  rewrite <- (proj2 (toordinal_ok a Ha)), <- (proj2 (toordinal_ok b Hb)), E.
  reflexivity.
Qed.

Lemma weekday_fromordinal (n : Z) :
  1 <= n <= MAXORDINAL -> weekday (fromordinal n) = (n + 6) mod 7.
Proof.
  intros Hn. unfold weekday. rewrite (proj2 (fromordinal_ok n Hn)). reflexivity.
Qed.

Lemma weekday_range (d : date) : 0 <= weekday d < 7.
Proof. unfold weekday. apply Z.mod_pos_bound. lia. Qed.

(** ** [prev_weekday] *)

Lemma date_sub_days_in_range (d : date) (k : Z) :
  1 <= toordinal d - k <= MAXORDINAL ->
  date_sub_days d k = Ret (fromordinal (toordinal d - k)).
Proof.
  intros H. unfold date_sub_days, date_add_days.
  replace (toordinal d + - k) with (toordinal d - k) by lia.
  replace (0 <? toordinal d - k) with true by (symmetry; apply Z.ltb_lt; lia).
  replace (toordinal d - k <=? MAXORDINAL) with true
    by (symmetry; apply Z.leb_le; lia).
  reflexivity.
Qed.

Lemma date_sub_days_cases (d : date) (k : Z) :
  date_sub_days d k = Raise OverflowError
  \/ (1 <= toordinal d - k <= MAXORDINAL
      /\ date_sub_days d k = Ret (fromordinal (toordinal d - k))).
Proof.
  unfold date_sub_days, date_add_days.
  replace (toordinal d + - k) with (toordinal d - k) by lia.
  destruct (0 <? toordinal d - k) eqn:E1; [|left; reflexivity].
  destruct (toordinal d - k <=? MAXORDINAL) eqn:E2; [|left; reflexivity].
  right. apply Z.ltb_lt in E1. apply Z.leb_le in E2. split; [lia|reflexivity].
Qed.

Lemma prev_weekday_loop_eq (fuel : nat) (d : date) :
  prev_weekday_loop fuel d
  = if 5 <=? weekday d then
      match fuel with
      | O => OutOfFuel
      | S fuel' => let? d' := date_sub_days d 1 in prev_weekday_loop fuel' d'
      end
    else Ret d.
Proof. destruct fuel; reflexivity. Qed.

(** Fuel that was enough stays enough, with the same result. *)
Lemma prev_weekday_loop_mono (fuel : nat) :
  forall d, prev_weekday_loop fuel d <> OutOfFuel ->
  forall fuel', (fuel <= fuel')%nat ->
  prev_weekday_loop fuel' d = prev_weekday_loop fuel d.
Proof.
  induction fuel as [|k IH]; intros d H fuel' Hle.
  - rewrite (prev_weekday_loop_eq 0) in H |- *.
    rewrite (prev_weekday_loop_eq fuel').
    destruct (5 <=? weekday d); [congruence | reflexivity].
  - destruct fuel' as [|k']; [lia|].
    rewrite prev_weekday_loop_eq in H.
    rewrite (prev_weekday_loop_eq (S k)), (prev_weekday_loop_eq (S k')).
    destruct (5 <=? weekday d); [|reflexivity].
    destruct (date_sub_days d 1) as [d'| |]; cbn [res_bind] in *;
      try reflexivity.
    apply IH; [exact H | lia].
Qed.

(** The loop never runs out of the fuel [prev_weekday] gives it. *)
Lemma prev_weekday_loop_fuel (fuel : nat) :
  forall d, (Z.to_nat (toordinal d) < fuel)%nat ->
  prev_weekday_loop fuel d <> OutOfFuel.
Proof.
  induction fuel as [|k IH]; intros d Hf; [lia|].
  rewrite prev_weekday_loop_eq.
  destruct (5 <=? weekday d); [|discriminate].
  destruct (date_sub_days_cases d 1) as [E | [Hr E]]; rewrite E;
    cbn [res_bind]; [discriminate|].
  apply IH. rewrite (proj2 (fromordinal_ok _ Hr)). lia.
Qed.

Lemma prev_weekday_fuel_enough (d : date) : prev_weekday d <> OutOfFuel.
Proof. apply prev_weekday_loop_fuel. lia. Qed.

Lemma prev_weekday_more_fuel (d : date) (fuel : nat) :
  (Z.to_nat (toordinal d) < fuel)%nat ->
  prev_weekday_loop fuel d = prev_weekday d.
Proof.
  intros Hf. unfold prev_weekday.
  destruct (Nat.le_ge_cases fuel (S (Z.to_nat (toordinal d)))) as [Hle | Hge].
  - symmetry. apply prev_weekday_loop_mono; [|exact Hle].
    apply prev_weekday_loop_fuel. exact Hf.
  - apply prev_weekday_loop_mono; [|exact Hge].
    apply prev_weekday_loop_fuel. lia.
Qed.

(** What the loop returns, by the day of the week it starts on. *)
Lemma prev_weekday_spec (d : date) :
  valid_date d = true ->
  prev_weekday d
  = Ret (if weekday d <? 5 then d
         else fromordinal (toordinal d - (weekday d - 4))).
Proof.
  intros Hv. destruct (toordinal_ok d Hv) as [Ho _].
  pose proof (weekday_range d) as Hw.
  assert (Hwd : weekday d = (toordinal d + 6) mod 7) by reflexivity.
  destruct (weekday d <? 5) eqn:E5.
  - apply Z.ltb_lt in E5.
    rewrite <- (prev_weekday_more_fuel d (S (Z.to_nat (toordinal d)))) by lia.
    rewrite prev_weekday_loop_eq.
    replace (5 <=? weekday d) with false by (symmetry; apply Z.leb_gt; lia).
    reflexivity.
  - apply Z.ltb_ge in E5.
    unfold prev_weekday.
    rewrite prev_weekday_loop_eq.
    replace (5 <=? weekday d) with true by (symmetry; apply Z.leb_le; lia).
    assert (Ho1 : 1 <= toordinal d - 1 <= MAXORDINAL) by lia.
    rewrite (date_sub_days_in_range d 1 Ho1). cbn [res_bind].
    pose proof (weekday_fromordinal _ Ho1) as W1.
    pose proof (proj2 (fromordinal_ok _ Ho1)) as O1.
    destruct (Z.to_nat (toordinal d)) as [|k] eqn:Ek; [lia|].
    rewrite prev_weekday_loop_eq.
    destruct (Z.eq_dec (weekday d) 5) as [E|E].
    + replace (5 <=? weekday (fromordinal (toordinal d - 1))) with false
        by (symmetry; apply Z.leb_gt; lia).
      rewrite E. reflexivity.
    + replace (5 <=? weekday (fromordinal (toordinal d - 1))) with true
        by (symmetry; apply Z.leb_le; lia).
      destruct k as [|k]; [lia|].
      assert (Ho2 : 1 <= toordinal (fromordinal (toordinal d - 1)) - 1
                    <= MAXORDINAL) by lia.
      rewrite (date_sub_days_in_range _ 1 Ho2). cbn [res_bind].
      rewrite O1 in *.
      replace (toordinal d - 1 - 1) with (toordinal d - 2) in * by lia.
      pose proof (weekday_fromordinal _ Ho2) as W2.
      rewrite prev_weekday_loop_eq.
      replace (5 <=? weekday (fromordinal (toordinal d - 2))) with false
        by (symmetry; apply Z.leb_gt; lia).
      replace (weekday d - 4) with 2 by lia. reflexivity.
Qed.


(** ** Strings of digits *)

Lemma N_of_digit (n : Z) : N_of_ascii (digit n) = Z.to_N (48 + n mod 10).
Proof. unfold digit. apply N_ascii_embedding. lia. Qed.

Lemma digit_value_digit (n : Z) : digit_value (digit n) = Some (n mod 10).
Proof.
  unfold digit_value. rewrite N_of_digit. rewrite Z2N.id by lia.
  replace ((48 <=? 48 + n mod 10) && (48 + n mod 10 <=? 57)) with true
    by (symmetry; apply andb_true_iff; split; apply Z.leb_le; lia).
  f_equal. lia.
Qed.

Lemma digit_compare (a b : Z) :
  Ascii.compare (digit a) (digit b) = (a mod 10 ?= b mod 10).
Proof.
  unfold Ascii.compare. rewrite !N_of_digit.
  rewrite Z2N.inj_compare by lia.
  apply Z.add_compare_mono_l.
Qed.

Lemma digit_ext (a b : Z) : a mod 10 = b mod 10 -> digit a = digit b.
Proof. intros E. unfold digit. rewrite E. reflexivity. Qed.

Lemma pad4_split (n : Z) : pad4 n = pad2 (n / 100) ++ pad2 (n mod 100).
Proof.
  unfold pad4, pad2. cbn [append].
  f_equal; [apply digit_ext; lia|].
  f_equal; f_equal; [apply digit_ext; lia|].
  f_equal. apply digit_ext. lia.
Qed.

Lemma pad2_app_assoc (n : Z) (s t : string) :
  (pad2 n ++ s) ++ t = pad2 n ++ (s ++ t).
Proof. reflexivity. Qed.

Lemma pad2_empty_r (n : Z) : pad2 n ++ "" = pad2 n.
Proof. reflexivity. Qed.

Lemma compare_pad2 (a b : Z) (s t : string) :
  0 <= a < 100 -> 0 <= b < 100 ->
  String.compare (pad2 a ++ s) (pad2 b ++ t)
  = match a ?= b with
    | Eq => String.compare s t
    | c => c
    end.
Proof.
  intros Ha Hb. unfold pad2. cbn [append String.compare].
  rewrite !digit_compare.
  destruct (Z.compare_spec ((a / 10) mod 10) ((b / 10) mod 10));
    destruct (Z.compare_spec (a mod 10) (b mod 10));
    destruct (Z.compare_spec a b); try reflexivity; lia.
Qed.

Lemma compare_pad4 (a b : Z) (s t : string) :
  0 <= a < 10000 -> 0 <= b < 10000 ->
  String.compare (pad4 a ++ s) (pad4 b ++ t)
  = match a ?= b with
    | Eq => String.compare s t
    | c => c
    end.
Proof.
  intros Ha Hb. rewrite !pad4_split, !pad2_app_assoc.
  rewrite compare_pad2 by lia.
  destruct (Z.compare_spec (a / 100) (b / 100)).
  - rewrite compare_pad2 by lia.
    destruct (Z.compare_spec (a mod 100) (b mod 100));
      destruct (Z.compare_spec a b); try reflexivity; lia.
  - destruct (Z.compare_spec a b); try reflexivity; lia.
  - destruct (Z.compare_spec a b); try reflexivity; lia.
Qed.

(** Strings of the form YYYYMMDD compare as the dates they show. *)
Lemma yyyymmdd_compare (a b : date) :
  valid_date a = true -> valid_date b = true ->
  String.compare (yyyymmdd a) (yyyymmdd b)
  = cmp_tuple [year a; month a; day a] [year b; month b; day b].
Proof.
  intros Ha Hb.
  destruct (valid_date_bounds a Ha) as (Hya & Hma & Hda).
  destruct (valid_date_bounds b Hb) as (Hyb & Hmb & Hdb).
  pose proof (days_in_month_le_31 (year a) (month a) Hma).
  pose proof (days_in_month_le_31 (year b) (month b) Hmb).
  unfold yyyymmdd.
  rewrite compare_pad4 by lia. cbn [cmp_tuple].
  destruct (year a ?= year b); try reflexivity.
  rewrite compare_pad2 by lia.
  destruct (month a ?= month b); try reflexivity.
  rewrite <- (pad2_empty_r (day a)), <- (pad2_empty_r (day b)).
  rewrite compare_pad2 by lia.
  destruct (day a ?= day b); reflexivity.
Qed.

Lemma yyyymmdd_ltb (a b : date) :
  valid_date a = true -> valid_date b = true ->
  String.ltb (yyyymmdd a) (yyyymmdd b) = date_lt a b.
Proof.
  intros Ha Hb. unfold String.ltb, date_lt.
  rewrite yyyymmdd_compare by assumption. reflexivity.
Qed.

(** A date is read back from its form YYYYMMDD. *)
Lemma parse_yyyymmdd (d : date) :
  valid_date d = true -> parse_Ymd (yyyymmdd d) = Some d.
Proof.
  intros Hv. destruct (valid_date_bounds d Hv) as (Hy & Hm & Hd).
  pose proof (days_in_month_le_31 (year d) (month d) Hm).
  destruct d as [y m dd]. cbn [year month day] in *.
  unfold yyyymmdd, pad4, pad2, parse_Ymd, slice.
  cbn [append String.length Nat.eqb Nat.sub substring parse_digits].
  rewrite !digit_value_digit. cbn [parse_digits year month day].
  f_equal. f_equal; lia.
Qed.

(** ** What [strftime] writes *)

(** From the year 1000 on, [strftime] writes the form YYYYMMDD. *)
Lemma strftime_Ymd_four_digits (d : date) :
  1000 <= year d -> strftime_Ymd d = yyyymmdd d.
Proof.
  intros H. unfold strftime_Ymd, yyyymmdd, year_digits.
  replace (year d <? 10) with false by (symmetry; apply Z.ltb_ge; lia).
  replace (year d <? 100) with false by (symmetry; apply Z.ltb_ge; lia).
  replace (year d <? 1000) with false by (symmetry; apply Z.ltb_ge; lia).
  reflexivity.
Qed.

(** Before the year 1000 it writes fewer than eight characters. *)
Lemma strftime_Ymd_short (d : date) :
  year d < 1000 -> (String.length (strftime_Ymd d) < 8)%nat.
Proof.
  intros H. unfold strftime_Ymd, year_digits, pad2.
  destruct (year d <? 10); [cbn; lia|].
  destruct (year d <? 100); [cbn; lia|].
  replace (year d <? 1000) with true by (symmetry; apply Z.ltb_lt; lia).
  cbn. lia.
Qed.

(** The year is written as Python writes an integer. *)
Lemma year_digits_checked : all_in 14 0 year_digits_ok = true.
Proof. vm_cast_no_check (eq_refl true). Qed.

Lemma year_digits_decimal (y : Z) :
  1 <= y <= 9999 -> year_digits y = str_of_Z y.
Proof.
  intros H.
  assert (C : year_digits_ok y = true).
  { apply (all_in_spec 14 0 _ year_digits_checked). cbn. lia. }
  unfold year_digits_ok in C.
  replace ((1 <=? y) && (y <=? 9999)) with true in C
    by (symmetry; apply andb_true_iff; split; apply Z.leb_le; lia).
  apply String.eqb_eq. exact C.
Qed.

Example strftime_first_day : strftime_Ymd (mkdate 1 1 1) = "10101".
Proof. reflexivity. Qed.

Example strftime_year_999 : strftime_Ymd (mkdate 999 12 31) = "9991231".
Proof. reflexivity. Qed.

Example strftime_year_1000 : strftime_Ymd (mkdate 1000 1 1) = "10000101".
Proof. reflexivity. Qed.

(** ** The expected-date estimator *)

Lemma valid_datetime_bounds (t : datetime) :
  valid_datetime t = true ->
  valid_date (date_of t) = true
  /\ 0 <= hour t < 24 /\ 0 <= minute t < 60 /\ 0 <= second t < 60
  /\ 0 <= microsecond t < 1000000.
Proof.
  unfold valid_datetime. intros H.
  rewrite !andb_true_iff, !Z.leb_le, !Z.ltb_lt in H. tauto.
Qed.

(** Against the cutoff of its own day, a time compares by hour and minute. *)
Lemma datetime_ge_cutoff (now_bj : datetime) :
  valid_datetime now_bj = true ->
  datetime_ge now_bj (mkdatetime (date_of now_bj) 17 30 0 0)
  = at_or_after_1730 now_bj.
Proof.
  intros Hv. destruct (valid_datetime_bounds _ Hv) as (_ & Hh & Hm & Hs & Hu).
  unfold datetime_ge, datetime_state, at_or_after_1730.
  cbn [cmp_tuple date_of hour minute second microsecond].
  rewrite !Z.compare_refl.
  destruct (17 * 60 + 30 <=? hour now_bj * 60 + minute now_bj) eqn:E;
    [apply Z.leb_le in E | apply Z.leb_gt in E];
    destruct (Z.compare_spec (hour now_bj) 17);
    destruct (Z.compare_spec (minute now_bj) 30);
    destruct (Z.compare_spec (second now_bj) 0);
    destruct (Z.compare_spec (microsecond now_bj) 0);
    try reflexivity; lia.
Qed.

Lemma toordinal_min (d : date) :
  valid_date d = true -> toordinal d = 1 -> d = mkdate 1 1 1.
Proof.
  intros Hv H1. apply toordinal_inj; [exact Hv | reflexivity | exact H1].
Qed.

(** The estimator against its closed form: but for a time before 17:30 on
    the first day of the calendar, it returns the string of
    [expected_date]. *)
Lemma expected_trade_date_bj_closed_form (now_bj : datetime) :
  valid_datetime now_bj = true ->
  (date_of now_bj = mkdate 1 1 1 -> at_or_after_1730 now_bj = true) ->
  expected_trade_date_bj now_bj = Ret (strftime_Ymd (expected_date now_bj)).
Proof.
  intros Hv Hmin.
  destruct (valid_datetime_bounds _ Hv) as (Hd & _).
  unfold expected_trade_date_bj, expected_date.
  set (today := date_of now_bj) in *.
  destruct (toordinal_ok today Hd) as [Ho _].
  pose proof (weekday_range today) as Hwr.
  assert (Hwd : weekday today = (toordinal today + 6) mod 7) by reflexivity.
  destruct (5 <=? weekday today) eqn:E5.
  - apply Z.leb_le in E5. rewrite (prev_weekday_spec today Hd).
    replace (weekday today <? 5) with false by (symmetry; apply Z.ltb_ge; lia).
    reflexivity.
  - apply Z.leb_gt in E5. rewrite datetime_ge_cutoff by exact Hv.
    destruct (at_or_after_1730 now_bj) eqn:Ht; [reflexivity|].
    assert (Ho' : toordinal today <> 1).
    { intro E. apply toordinal_min in E; [|exact Hd].
      specialize (Hmin E). congruence. }
    assert (Ho1 : 1 <= toordinal today - 1 <= MAXORDINAL) by lia.
    destruct (fromordinal_ok _ Ho1) as [Hvy Hoy].
    pose proof (weekday_fromordinal _ Ho1) as Hwy.
    rewrite (date_sub_days_in_range today 1 Ho1). cbn [res_bind].
    rewrite (prev_weekday_spec _ Hvy). cbn [res_bind].
    rewrite Hoy, Hwy.
    destruct (Z.eqb_spec (weekday today) 0) as [E0 | E0].
    + replace ((toordinal today - 1 + 6) mod 7 <? 5) with false
        by (symmetry; apply Z.ltb_ge; lia).
      do 3 f_equal. lia.
    + replace ((toordinal today - 1 + 6) mod 7 <? 5) with true
        by (symmetry; apply Z.ltb_lt; lia).
      reflexivity.
Qed.

(** The date of the closed form is a date of the calendar, a weekday, and
    at most three days back. *)
Lemma expected_date_ok (now_bj : datetime) :
  valid_datetime now_bj = true ->
  (date_of now_bj = mkdate 1 1 1 -> at_or_after_1730 now_bj = true) ->
  valid_date (expected_date now_bj) = true
  /\ toordinal (expected_date now_bj)
     = toordinal (date_of now_bj)
       - (if 5 <=? weekday (date_of now_bj)
          then weekday (date_of now_bj) - 4
          else if at_or_after_1730 now_bj then 0
          else if weekday (date_of now_bj) =? 0 then 3 else 1)
  /\ weekday (expected_date now_bj)
     = (if 5 <=? weekday (date_of now_bj) then 4
        else if at_or_after_1730 now_bj then weekday (date_of now_bj)
        else if weekday (date_of now_bj) =? 0 then 4
        else weekday (date_of now_bj) - 1).
Proof.
  intros Hv Hmin.
  destruct (valid_datetime_bounds _ Hv) as (Hd & _).
  unfold expected_date.
  set (today := date_of now_bj) in *.
  destruct (toordinal_ok today Hd) as [Ho _].
  pose proof (weekday_range today) as Hwr.
  assert (Hwd : weekday today = (toordinal today + 6) mod 7) by reflexivity.
  destruct (5 <=? weekday today) eqn:E5.
  - apply Z.leb_le in E5.
    assert (Hof : 1 <= toordinal today - (weekday today - 4) <= MAXORDINAL)
      by lia.
    destruct (fromordinal_ok _ Hof) as [Hvf Hoff].
    pose proof (weekday_fromordinal _ Hof) as Hwf.
    repeat split; [exact Hvf | exact Hoff | lia].
  - apply Z.leb_gt in E5.
    destruct (at_or_after_1730 now_bj) eqn:Ht.
    + repeat split; [exact Hd | lia].
    + assert (Ho' : toordinal today <> 1).
      { intro E. apply toordinal_min in E; [|exact Hd].
        specialize (Hmin E). congruence. }
      set (k := if weekday today =? 0 then 3 else 1).
      assert (Hk : 1 <= toordinal today - k <= MAXORDINAL
                   /\ (toordinal today - k + 6) mod 7
                      = (if weekday today =? 0 then 4 else weekday today - 1)).
      { unfold k. destruct (Z.eqb_spec (weekday today) 0); lia. }
      destruct Hk as [Hk Hwk].
      destruct (fromordinal_ok _ Hk) as [Hvf Hoff].
      pose proof (weekday_fromordinal _ Hk) as Hwf.
      repeat split; [exact Hvf | exact Hoff | congruence].
Qed.

(** C3, as the code has it: on a weekday at or after 17:30 the estimator
    returns what [strftime] writes for the date of that day; from the
    year 1000 on that is the date as YYYYMMDD, and it reads back as that
    day. *)
Theorem expected_weekday_from_cutoff (now_bj : datetime) :
  valid_datetime now_bj = true ->
  weekday (date_of now_bj) < 5 ->
  at_or_after_1730 now_bj = true ->
  expected_trade_date_bj now_bj = Ret (strftime_Ymd (date_of now_bj))
  /\ (1000 <= year (date_of now_bj) ->
      expected_trade_date_bj now_bj = Ret (yyyymmdd (date_of now_bj))
      /\ parse_Ymd (strftime_Ymd (date_of now_bj)) = Some (date_of now_bj)).
Proof.
  intros Hv Hw Ht.
  destruct (valid_datetime_bounds _ Hv) as (Hd & _).
  assert (Hret : expected_trade_date_bj now_bj
                 = Ret (strftime_Ymd (date_of now_bj))).
  { rewrite expected_trade_date_bj_closed_form by (intros; assumption).
    unfold expected_date.
    replace (5 <=? weekday (date_of now_bj)) with false
      by (symmetry; apply Z.leb_gt; exact Hw).
    rewrite Ht. reflexivity. }
  split; [exact Hret|]. intros Hy.
  rewrite Hret, (strftime_Ymd_four_digits _ Hy).
  split; [reflexivity | apply parse_yyyymmdd; exact Hd].
Qed.

Lemma expected_weekday_from_cutoff_witness :
  let now_bj := mkdatetime (mkdate 2024 1 5) 17 30 0 0 in
  valid_datetime now_bj = true
  /\ weekday (date_of now_bj) < 5
  /\ at_or_after_1730 now_bj = true
  /\ expected_trade_date_bj now_bj = Ret (strftime_Ymd (date_of now_bj))
  /\ (1000 <= year (date_of now_bj) ->
      expected_trade_date_bj now_bj = Ret (yyyymmdd (date_of now_bj))
      /\ parse_Ymd (strftime_Ymd (date_of now_bj)) = Some (date_of now_bj)).
Proof.
  intro now_bj.
  split; [vm_compute; reflexivity|]. split; [vm_compute; reflexivity|].
  split; [vm_compute; reflexivity|].
  refine (expected_weekday_from_cutoff now_bj _ _ _);
    vm_compute; reflexivity.
Defined.

(** C3 as it is written fails before the year 1000: at 18:00 on
    0001-01-01, a Monday, the estimator returns "10101", which is not that
    day as YYYYMMDD and does not read as a date. *)
Lemma expected_weekday_from_cutoff_counterexample :
  let now_bj := mkdatetime (mkdate 1 1 1) 18 0 0 0 in
  valid_datetime now_bj = true
  /\ weekday (date_of now_bj) < 5
  /\ at_or_after_1730 now_bj = true
  /\ expected_trade_date_bj now_bj = Ret "10101"
  /\ yyyymmdd (date_of now_bj) = "00010101"
  /\ expected_trade_date_bj now_bj <> Ret (yyyymmdd (date_of now_bj))
  /\ parse_Ymd "10101" = None.
Proof.
  vm_compute. repeat split; try reflexivity. intros H. discriminate H.
Qed.

(** C4, as the code has it: on a weekday before 17:30, other than
    0001-01-01, the estimator returns the latest weekday strictly before
    today: it is [prev_weekday (today - 1 day)], three days back on a
    Monday and one day back otherwise, and every day between it and today
    is a Saturday or a Sunday. *)
Theorem expected_weekday_before_cutoff (now_bj : datetime) :
  valid_datetime now_bj = true ->
  weekday (date_of now_bj) < 5 ->
  at_or_after_1730 now_bj = false ->
  date_of now_bj <> mkdate 1 1 1 ->
  exists yesterday d : date,
    date_sub_days (date_of now_bj) 1 = Ret yesterday
    /\ prev_weekday yesterday = Ret d
    /\ expected_trade_date_bj now_bj = Ret (strftime_Ymd d)
    /\ valid_date d = true
    /\ weekday d < 5
    /\ toordinal d
       = toordinal (date_of now_bj)
         - (if weekday (date_of now_bj) =? 0 then 3 else 1)
    /\ (forall e : date,
          toordinal d < toordinal e < toordinal (date_of now_bj) ->
          5 <= weekday e).
Proof.
  intros Hv Hw Ht Hmin.
  assert (Hmin' : date_of now_bj = mkdate 1 1 1 ->
                  at_or_after_1730 now_bj = true)
    by (intro E; contradiction).
  pose proof (expected_trade_date_bj_closed_form now_bj Hv Hmin') as Hcf.
  destruct (expected_date_ok now_bj Hv Hmin') as (Hvd & Hod & Hwd').
  destruct (valid_datetime_bounds _ Hv) as (Hd & _).
  set (today := date_of now_bj) in *.
  destruct (toordinal_ok today Hd) as [Ho _].
  pose proof (weekday_range today) as Hwr.
  assert (Hwd : weekday today = (toordinal today + 6) mod 7) by reflexivity.
  replace (5 <=? weekday today) with false in Hod, Hwd'
    by (symmetry; apply Z.leb_gt; exact Hw).
  rewrite Ht in Hod, Hwd'.
  assert (Ho' : toordinal today <> 1)
    by (intro E; apply Hmin; apply toordinal_min; assumption).
  assert (Ho1 : 1 <= toordinal today - 1 <= MAXORDINAL) by lia.
  destruct (fromordinal_ok _ Ho1) as [Hvy Hoy].
  pose proof (weekday_fromordinal _ Ho1) as Hwy.
  exists (fromordinal (toordinal today - 1)), (expected_date now_bj).
  split; [apply date_sub_days_in_range; exact Ho1|].
  split.
  { rewrite (prev_weekday_spec _ Hvy). f_equal.
    unfold expected_date. fold today.
    replace (5 <=? weekday today) with false
      by (symmetry; apply Z.leb_gt; exact Hw).
    rewrite Ht, Hoy, Hwy.
    destruct (Z.eqb_spec (weekday today) 0) as [E0 | E0].
    - replace ((toordinal today - 1 + 6) mod 7 <? 5) with false
        by (symmetry; apply Z.ltb_ge; lia).
      f_equal. lia.
    - replace ((toordinal today - 1 + 6) mod 7 <? 5) with true
        by (symmetry; apply Z.ltb_lt; lia).
      reflexivity. }
  split; [exact Hcf|]. split; [exact Hvd|].
  split; [destruct (Z.eqb_spec (weekday today) 0); lia|].
  split; [exact Hod|].
  intros e He. unfold weekday.
  destruct (Z.eqb_spec (weekday today) 0); lia.
Qed.

Lemma expected_weekday_before_cutoff_witness :
  let now_bj := mkdatetime (mkdate 2024 1 8) 10 0 0 0 in
  valid_datetime now_bj = true
  /\ weekday (date_of now_bj) < 5
  /\ at_or_after_1730 now_bj = false
  /\ date_of now_bj <> mkdate 1 1 1
  /\ exists yesterday d : date,
       date_sub_days (date_of now_bj) 1 = Ret yesterday
       /\ prev_weekday yesterday = Ret d
       /\ expected_trade_date_bj now_bj = Ret (strftime_Ymd d)
       /\ valid_date d = true
       /\ weekday d < 5
       /\ toordinal d
          = toordinal (date_of now_bj)
            - (if weekday (date_of now_bj) =? 0 then 3 else 1)
       /\ (forall e : date,
             toordinal d < toordinal e < toordinal (date_of now_bj) ->
             5 <= weekday e).
Proof.
  intro now_bj.
  split; [vm_compute; reflexivity|]. split; [vm_compute; reflexivity|].
  split; [vm_compute; reflexivity|]. split; [discriminate|].
  refine (expected_weekday_before_cutoff now_bj _ _ _ _);
    [vm_compute; reflexivity | vm_compute; reflexivity
     | vm_compute; reflexivity | discriminate].
Defined.

(** C4 as it is written fails on the first day of the calendar, a Monday:
    there is no day before it and the subtraction raises. *)
Lemma expected_weekday_before_cutoff_counterexample :
  let now_bj := mkdatetime (mkdate 1 1 1) 10 0 0 0 in
  valid_datetime now_bj = true
  /\ weekday (date_of now_bj) < 5
  /\ at_or_after_1730 now_bj = false
  /\ expected_trade_date_bj now_bj = Raise OverflowError.
Proof. vm_compute. repeat split; reflexivity. Qed.

(** C5: on a Saturday or a Sunday, at any time of day, the estimator
    returns the Friday before: a Friday, one day back from a Saturday and
    two from a Sunday. *)
Theorem expected_weekend (now_bj : datetime) :
  valid_datetime now_bj = true ->
  5 <= weekday (date_of now_bj) ->
  exists friday : date,
    expected_trade_date_bj now_bj = Ret (strftime_Ymd friday)
    /\ valid_date friday = true
    /\ weekday friday = 4
    /\ toordinal friday
       = toordinal (date_of now_bj)
         - (if weekday (date_of now_bj) =? 5 then 1 else 2).
Proof.
  intros Hv Hw.
  assert (Hmin : date_of now_bj = mkdate 1 1 1 ->
                 at_or_after_1730 now_bj = true).
  { intro E. rewrite E in Hw. vm_compute in Hw. contradiction Hw. reflexivity. }
  pose proof (expected_trade_date_bj_closed_form now_bj Hv Hmin) as Hcf.
  destruct (expected_date_ok now_bj Hv Hmin) as (Hvd & Hod & Hwd).
  pose proof (weekday_range (date_of now_bj)) as Hwr.
  replace (5 <=? weekday (date_of now_bj)) with true in Hod, Hwd
    by (symmetry; apply Z.leb_le; exact Hw).
  exists (expected_date now_bj).
  repeat split; try assumption.
  rewrite Hod. destruct (Z.eqb_spec (weekday (date_of now_bj)) 5); lia.
Qed.

Lemma expected_weekend_witness :
  let now_bj := mkdatetime (mkdate 2024 1 7) 23 59 59 0 in
  valid_datetime now_bj = true
  /\ 5 <= weekday (date_of now_bj)
  /\ exists friday : date,
       expected_trade_date_bj now_bj = Ret (strftime_Ymd friday)
       /\ valid_date friday = true
       /\ weekday friday = 4
       /\ toordinal friday
          = toordinal (date_of now_bj)
            - (if weekday (date_of now_bj) =? 5 then 1 else 2).
Proof.
  intro now_bj.
  split; [vm_compute; reflexivity|]. split; [vm_compute; discriminate|].
  refine (expected_weekend now_bj _ _);
    [vm_compute; reflexivity | vm_compute; discriminate].
Defined.

(** C10, as the code has it: at every time other than one before 17:30 on
    0001-01-01, the estimator returns what [strftime] writes for a date
    that is neither a Saturday nor a Sunday; when that date is of the
    year 1000 or later, the string is the date as YYYYMMDD and reads back
    as it. *)
Theorem expected_is_weekday (now_bj : datetime) :
  valid_datetime now_bj = true ->
  (date_of now_bj = mkdate 1 1 1 -> at_or_after_1730 now_bj = true) ->
  exists d : date,
    expected_trade_date_bj now_bj = Ret (strftime_Ymd d)
    /\ valid_date d = true
    /\ weekday d < 5
    /\ (1000 <= year d ->
        expected_trade_date_bj now_bj = Ret (yyyymmdd d)
        /\ parse_Ymd (strftime_Ymd d) = Some d).
Proof.
  intros Hv Hmin.
  pose proof (expected_trade_date_bj_closed_form now_bj Hv Hmin) as Hcf.
  destruct (expected_date_ok now_bj Hv Hmin) as (Hvd & _ & Hwd).
  pose proof (weekday_range (date_of now_bj)) as Hwr.
  exists (expected_date now_bj).
  split; [exact Hcf|]. split; [exact Hvd|].
  split;
    [| intros Hy; rewrite Hcf, (strftime_Ymd_four_digits _ Hy);
       split; [reflexivity | apply parse_yyyymmdd; exact Hvd] ].
  rewrite Hwd.
  destruct (Z.leb_spec 5 (weekday (date_of now_bj))); [lia|].
  destruct (at_or_after_1730 now_bj); [lia|].
  destruct (Z.eqb_spec (weekday (date_of now_bj)) 0); lia.
Qed.

Lemma expected_is_weekday_witness :
  let now_bj := mkdatetime (mkdate 2024 1 6) 12 0 0 0 in
  valid_datetime now_bj = true
  /\ (date_of now_bj = mkdate 1 1 1 -> at_or_after_1730 now_bj = true)
  /\ exists d : date,
       expected_trade_date_bj now_bj = Ret (strftime_Ymd d)
       /\ valid_date d = true
       /\ weekday d < 5
       /\ (1000 <= year d ->
           expected_trade_date_bj now_bj = Ret (yyyymmdd d)
           /\ parse_Ymd (strftime_Ymd d) = Some d).
Proof.
  intro now_bj.
  split; [vm_compute; reflexivity|]. split; [discriminate|].
  refine (expected_is_weekday now_bj _ _);
    [vm_compute; reflexivity | discriminate].
Defined.

(** C10 as it is written fails on the first day of the calendar, a
    Monday.  At midnight the estimator raises and returns no string; at
    18:00 it returns "10101", five characters that do not read as a
    date. *)
Lemma expected_is_weekday_counterexample :
  let midnight := mkdatetime (mkdate 1 1 1) 0 0 0 0 in
  let evening := mkdatetime (mkdate 1 1 1) 18 0 0 0 in
  valid_datetime midnight = true
  /\ expected_trade_date_bj midnight = Raise OverflowError
  /\ (forall s : string, expected_trade_date_bj midnight <> Ret s)
  /\ valid_datetime evening = true
  /\ expected_trade_date_bj evening = Ret "10101"
  /\ parse_Ymd "10101" = None
  /\ (forall d : date,
        expected_trade_date_bj evening <> Ret (yyyymmdd d)).
Proof.
  vm_compute. repeat split; try reflexivity.
  - intros s H. discriminate H.
  - intros d H. discriminate H.
Qed.

(** The examples of the specification: Monday 10:00 gives the Friday
    before, and so does any time of the weekend. *)
Example monday_morning :
  expected_trade_date_bj (mkdatetime (mkdate 2024 1 8) 10 0 0 0)
  = Ret "20240105".
Proof. vm_compute. reflexivity. Qed.

Example friday_evening :
  expected_trade_date_bj (mkdatetime (mkdate 2024 1 5) 17 30 0 0)
  = Ret "20240105".
Proof. vm_compute. reflexivity. Qed.

Example sunday_night :
  expected_trade_date_bj (mkdatetime (mkdate 2024 1 7) 23 59 59 0)
  = Ret "20240105".
Proof. vm_compute. reflexivity. Qed.

(** ** Runs of the script *)

Ltac run_step H :=
  cbv beta iota zeta in H;
  cbn [trace files ticks fst snd] in H;
  match type of H with
  | context [match ?x with _ => _ end] =>
      lazymatch x with
      | context [match _ with _ => _ end] => fail
      | _ => destruct x eqn:?
      end
  end.

Ltac run_done H :=
  cbv beta iota zeta in H;
  cbn [trace files ticks fst snd] in H;
  inversion H; subst; clear H; cbn [trace files ticks fst snd] in *.

Ltac in_trace H :=
  repeat match type of H with
         | In _ (_ ++ _)%list => apply in_app_or in H; destruct H as [H | H]
         | In _ (_ :: _) => destruct H as [H | H]
         | In _ [] => destruct H
         end.

Section ReadProperties.

Variable FL : PyFloat.
Variable json_load : string -> exn + json (float FL).

Lemma load_existing_date_spec (st : state (float FL)) :
  load_existing_date FL json_load st
  = (Ret match files st OUT_FILE with
         | Some text => stored_date json_load text
         | None => None
         end,
     mkstate (files st) (ticks st) (trace st ++ [EvRead OUT_FILE])).
Proof.
  unfold load_existing_date, try_except, open_read, bind, lift, ret, raise,
    stored_date.
  destruct (files st OUT_FILE) as [text|]; [|reflexivity].
  destruct (json_load text) as [e | obj]; [destruct e; reflexivity|].
  destruct obj as [ | b | n | x | s | items | members]; try reflexivity.
  cbn [json_get]. destruct (lookup "date" members) as [d|]; [|reflexivity].
  destruct d as [ | b | n | x | s | items | members']; cbn [json_not json_len].
  - reflexivity.
  - destruct b; reflexivity.
  - destruct (n =? 0); reflexivity.
  - destruct (float_is_zero FL x); reflexivity.
  - destruct s as [|c s]; [reflexivity|]. cbn [String.eqb].
    destruct (Nat.eqb_spec (String.length (String c s)) 10) as [E | E].
    + rewrite E. reflexivity.
    + replace (Z.of_nat (String.length (String c s)) =? 10) with false
        by (symmetry; apply Z.eqb_neq; lia).
      reflexivity.
  - destruct items; [reflexivity|].
    destruct (Z.of_nat (Datatypes.length (j :: items)) =? 10); reflexivity.
  - destruct members'; [reflexivity|].
    destruct (Z.of_nat (Datatypes.length (p :: members')) =? 10); reflexivity.
Qed.

Lemma no_stored_date_none (text : string) :
  no_stored_date json_load text -> stored_date json_load text = None.
Proof.
  unfold no_stored_date, stored_date.
  destruct (json_load text) as [e | obj]; [reflexivity|].
  destruct obj; try reflexivity.
  destruct (lookup "date" members) as [d|]; [|reflexivity].
  destruct d; try reflexivity.
  intros H. destruct (Nat.eqb_spec (String.length s) 10); [contradiction|].
  reflexivity.
Qed.

(** C7: an output file that does not decode, or that has no date of 10
    characters, reads as no prior date and nothing is raised - the same
    answer as for a file that does not exist. *)
Theorem load_existing_date_tolerant (st : state (float FL)) (text : string) :
  files st OUT_FILE = Some text ->
  no_stored_date json_load text ->
  load_existing_date FL json_load st
  = (Ret None, mkstate (files st) (ticks st) (trace st ++ [EvRead OUT_FILE]))
  /\ (forall st0 : state (float FL),
        files st0 OUT_FILE = None ->
        fst (load_existing_date FL json_load st0) = Ret None).
Proof.
  intros Hf Hn. split.
  - rewrite load_existing_date_spec, Hf, (no_stored_date_none text Hn).
    reflexivity.
  - intros st0 H0. rewrite load_existing_date_spec, H0. reflexivity.
Qed.

End ReadProperties.

Section RunProperties.

Variable FL : PyFloat.
Variable json_load : string -> exn + json (float FL).
Variable json_dump : snapshot (float FL) -> string.
Variable sort_values : string -> frame (float FL) -> frame (float FL).
Variable W : world (float FL).

Lemma fetch_spec (ts_code : string) (days_back : Z) (st st' : state (float FL))
      (r : res (option (frame (float FL)) * option (series (float FL)))) :
  fetch_hk_daily_latest FL sort_values W ts_code days_back st = (r, st') ->
  files st' = files st
  /\ exists evs : list (event (float FL)),
       trace st' = (trace st ++ evs)%list
       /\ Forall fetch_event evs
       /\ (forall c s e,
             In (EvQuery c s e) evs -> no_data (hk_daily W c s e) ->
             r = Ret (None, None)).
Proof.
  unfold fetch_hk_daily_latest, bj_now, call_hk_daily, print, emit, bind,
    lift, ret, raise, read_clock.
  intros H. repeat run_step H; run_done H;
    (split; [reflexivity|]); eexists;
    (split; [rewrite <- ?app_assoc; cbn [app]; try reflexivity;
             symmetry; apply app_nil_r|]);
    (split; [repeat constructor|]);
    intros qc qs qe Hin Hnd; cbn [In] in Hin;
    repeat (destruct Hin as [Hin | Hin]; try discriminate Hin);
    try contradiction;
    injection Hin as E1 E2 E3; subst qc qs qe;
    match goal with
    | E : hk_daily W _ _ _ = _ |- _ => rewrite E in Hnd
    end;
    cbn in Hnd; try contradiction; try congruence; reflexivity.
Qed.

(** C9: without the credential the run raises at once: the state it
    leaves is the state it found, with no query, no file read or written
    and nothing printed. *)
Theorem main_missing_token (st : state (float FL)) :
  getenv W "HK_MARKET_API_TOKEN" = None
  \/ getenv W "HK_MARKET_API_TOKEN" = Some "" ->
  main FL json_load json_dump sort_values W st
  = (Raise (RuntimeError "Missing HK_MARKET_API_TOKEN in environment"), st).
Proof.
  intros [H | H]; unfold main; rewrite H; reflexivity.
Qed.

(** Running [main] from the start, case by case; [fetch_spec] stands for
    the fetch and [load_existing_date_spec] for the read. *)
Ltac main_exec H :=
  unfold main, initial, bj_now, print, emit, bind, lift, ret, raise,
    read_clock, open_write in H;
  repeat first [ rewrite load_existing_date_spec in H | run_step H ];
  run_done H;
  repeat match goal with
         | Hf : fetch_hk_daily_latest _ _ _ _ _ _ = _ |- _ =>
             apply fetch_spec in Hf;
             destruct Hf as (Hfiles & evs & Htrace & Hevs & Hnodata);
             cbn [trace files ticks] in Hfiles, Htrace
         end.

Lemma fetch_event_in (evs : list (event (float FL))) (e : event (float FL)) :
  Forall fetch_event evs -> In e evs -> fetch_event e.
Proof. intros Hall Hin. rewrite Forall_forall in Hall. exact (Hall _ Hin). Qed.

Ltac by_fetch_event H :=
  match goal with
  | Hall : Forall fetch_event _ |- _ => exact (fetch_event_in _ _ Hall H)
  end.

Ltac trace_absurd H :=
  in_trace H; try discriminate H; try (exfalso; by_fetch_event H).

Ltac solve_no_write :=
  let Hw := fresh "Hw" in
  intros ? ? Hw; trace_absurd Hw.

(** C8: when the provider is queried and answers with no data, the run
    returns normally and no file is written. *)
Theorem main_no_data (fs : string -> option string) (r : res unit)
        (st' : state (float FL)) (ts_code start_date end_date : string) :
  main FL json_load json_dump sort_values W (initial fs) = (r, st') ->
  In (EvQuery ts_code start_date end_date) (trace st') ->
  no_data (hk_daily W ts_code start_date end_date) ->
  r = Ret tt
  /\ files st' = fs
  /\ no_write (trace st')
  /\ In (EvPrint InfoNoData) (trace st').
Proof.
  intros Hrun Hq Hnd. main_exec Hrun.
  all: try rewrite Htrace in *.
  all: in_trace Hq; try discriminate Hq.
  all: try (specialize (Hnodata _ _ _ Hq Hnd); try discriminate Hnodata).
  all: try (injection Hnodata as Ha; subst; cbn [snd] in *; try discriminate).
  repeat split; try assumption.
  - solve_no_write.
  - apply in_or_app. right. left. reflexivity.
Qed.

(** C1: when the date the provider's latest bar carries is the date the
    output file records, read as YYYYMMDD, and the override is off,
    nothing is written and the files are what they were; a run that gets
    as far as reading the output file logs that there are no changes and
    returns. *)
Theorem main_up_to_date (fs : string -> option string) (r : res unit)
        (st' : state (float FL)) (text : string)
        (members : list (string * json (float FL))) (s : string) :
  main FL json_load json_dump sort_values W (initial fs) = (r, st') ->
  fs OUT_FILE = Some text ->
  json_load text = inr (JObj members) ->
  lookup "date" members = Some (JStr s) ->
  String.length s = 10%nat ->
  In (EvPrint (InfoLatest (replace_char "-" "" s))) (trace st') ->
  force_update W = false ->
  files st' = fs
  /\ no_write (trace st')
  /\ (In (EvRead OUT_FILE) (trace st') ->
      r = Ret tt
      /\ In (EvPrint (InfoNoChanges (replace_char "-" "" s))) (trace st')).
Proof.
  intros Hrun Hfile Hjson Hdate Hlen Hlatest Hforce.
  assert (Hst : stored_date json_load text = Some (replace_char "-" "" s)).
  { unfold stored_date. rewrite Hjson, Hdate, Hlen. reflexivity. }
  main_exec Hrun.
  all: try rewrite Htrace in *.
  all: trace_absurd Hlatest.
  all: injection Hlatest as Hlatest.
  all: try rewrite Hfiles in *.
  all: try rewrite Hfile in *.
  all: try discriminate.
  all: try match goal with
           | E : Some _ = Some _ |- _ => injection E as E; subst
           end.
  all: try rewrite Hst in *.
  all: try rewrite Hforce in *.
  all: try rewrite Hlatest in *.
  all: cbn [eq_opt negb] in *.
  all: try rewrite String.eqb_refl in *.
  all: try discriminate.
  all: split; [reflexivity|]; (split; [solve_no_write|]).
  all: intros Hread; trace_absurd Hread.
  all: split; [reflexivity|].
  all: apply in_or_app; right; left; reflexivity.
Qed.

(** When the latest trade date sorts before the expected one as a string
    and the override is off, the run logs that it skips and returns; no
    file is written. *)
Lemma main_skips_when_behind (fs : string -> option string) (r : res unit)
      (st' : state (float FL)) (now_bj : datetime)
      (expected_td latest_td : string) :
  main FL json_load json_dump sort_values W (initial fs) = (r, st') ->
  In (EvPrint (InfoNow now_bj expected_td)) (trace st') ->
  In (EvPrint (InfoLatest latest_td)) (trace st') ->
  String.ltb latest_td expected_td = true ->
  force_update W = false ->
  expected_trade_date_bj now_bj = Ret expected_td
  /\ r = Ret tt
  /\ files st' = fs
  /\ no_write (trace st')
  /\ In (EvPrint (InfoSkip latest_td expected_td)) (trace st').
Proof.
  intros Hrun Hnow Hlatest Hlt Hforce.
  main_exec Hrun.
  all: try rewrite Htrace in *.
  all: trace_absurd Hlatest.
  all: injection Hlatest as Hlatest.
  all: trace_absurd Hnow.
  all: injection Hnow as Hnow1 Hnow2.
  all: subst.
  all: try rewrite Hlt, Hforce in *.
  all: cbn [andb negb] in *.
  all: try discriminate.
  repeat split; try assumption; try reflexivity.
  - solve_no_write.
  - apply in_or_app. right. left. reflexivity.
Qed.

(** C2: when the latest trade date is a date strictly before the expected
    one, both logged as YYYYMMDD, and the override is off, the run skips:
    it returns normally and no file is written. *)
Theorem main_behind_expected (fs : string -> option string) (r : res unit)
        (st' : state (float FL)) (now_bj : datetime) (latest expected : date) :
  main FL json_load json_dump sort_values W (initial fs) = (r, st') ->
  In (EvPrint (InfoNow now_bj (yyyymmdd expected))) (trace st') ->
  In (EvPrint (InfoLatest (yyyymmdd latest))) (trace st') ->
  valid_date latest = true ->
  valid_date expected = true ->
  date_lt latest expected = true ->
  force_update W = false ->
  r = Ret tt
  /\ files st' = fs
  /\ no_write (trace st')
  /\ In (EvPrint (InfoSkip (yyyymmdd latest) (yyyymmdd expected)))
        (trace st').
Proof.
  intros Hrun Hnow Hlatest Hvl Hve Hlt Hforce.
  apply (main_skips_when_behind fs r st' now_bj); try assumption.
  rewrite yyyymmdd_ltb by assumption. exact Hlt.
Qed.

End RunProperties.


Ltac row_step H :=
  match type of H with
  | res_bind ?v _ = _ =>
      let E := fresh "E" in
      destruct v eqn:E; cbn [res_bind] in H; try discriminate H
  end.

Section RowProperties.

Variable FL : PyFloat.

Lemma getitem_ret (row : series (float FL)) (k : string)
      (v : pyval (float FL)) :
  getitem row k = Ret v -> lookup k row = Some v.
Proof.
  unfold getitem. destruct (lookup k row); intros H; inversion H. reflexivity.
Qed.

(** C6 fails on the code for an amount the provider did not send and
    pandas holds as NaN.  The script takes an amount as missing only when
    it is None or the empty string; any other cell - a NaN among them - is
    converted and rounded, and close and volume play no part. *)
Theorem row_to_json_keeps_amount (latest : series (float FL))
        (ts_code : string) (data : snapshot (float FL)) :
  none_or_empty (get_default latest "amount" PNone) = false ->
  row_to_json FL latest ts_code = Ret data ->
  exists amount_f : float FL,
    py_float (get_default latest "amount" PNone) = Ret amount_f
    /\ snap_amount data = round2 FL amount_f.
Proof.
  intros Hamount Hrow. unfold row_to_json in Hrow.
  rewrite Hamount in Hrow.
  do 8 row_step Hrow.
  match type of Hrow with
  | res_bind ?v _ = _ => destruct v; cbn [res_bind] in Hrow;
                         try discriminate Hrow
  end.
  row_step Hrow. row_step Hrow.
  injection Hrow as <-. eexists. split; reflexivity.
Qed.

Lemma no_amount_none_or_empty (latest : series (float FL)) :
  no_amount latest ->
  none_or_empty (get_default latest "amount" PNone) = true.
Proof.
  unfold get_default. intros [H | [H | H]]; rewrite H; reflexivity.
Qed.


End RowProperties.

(** ** The properties at the concrete instance *)

Ltac in_list := vm_compute; repeat first [left; reflexivity | right].

Lemma main_up_to_date_witness :
  let w := Sample.world_of (Some "secret")
             (mkdatetime (mkdate 2024 1 5) 10 0 0 0)
             (inr (Some [Sample.bar "20240105"])) in
  let text := Sample.document "2024-01-05" in
  let fs := Sample.only_output text in
  let out := Sample.run w fs in
  fs OUT_FILE = Some text
  /\ Sample.json_load text = inr (JObj [("date", JStr "2024-01-05")])
  /\ In (EvPrint (InfoLatest (replace_char "-" "" "2024-01-05")))
        (trace (snd out))
  /\ force_update (FL:=Sample.milli) w = false
  /\ files (snd out) = fs
  /\ no_write (trace (snd out))
  /\ (In (EvRead OUT_FILE) (trace (snd out)) ->
      fst out = Ret tt
      /\ In (EvPrint (InfoNoChanges (replace_char "-" "" "2024-01-05")))
            (trace (snd out))).
Proof.
  intros w text fs out.
  split; [vm_compute; reflexivity|]. split; [vm_compute; reflexivity|].
  split; [in_list|]. split; [vm_compute; reflexivity|].
  refine (main_up_to_date Sample.milli Sample.json_load Sample.json_dump
            Sample.sort_values w fs (fst out) (snd out) text
            [("date", JStr "2024-01-05")] "2024-01-05" _ _ _ _ _ _ _).
  - apply surjective_pairing.
  - vm_compute; reflexivity.
  - vm_compute; reflexivity.
  - vm_compute; reflexivity.
  - vm_compute; reflexivity.
  - in_list.
  - vm_compute; reflexivity.
Defined.

Lemma main_behind_expected_witness :
  let w := Sample.world_of (Some "secret")
             (mkdatetime (mkdate 2024 1 8) 10 0 0 0)
             (inr (Some [Sample.bar "20240105"])) in
  let fs := Sample.only_output (Sample.document "2024-01-04") in
  let out := Sample.run w fs in
  let now_bj := mkdatetime (mkdate 2024 1 8) 18 0 0 0 in
  let latest := mkdate 2024 1 5 in
  let expected := mkdate 2024 1 8 in
  In (EvPrint (InfoNow now_bj (yyyymmdd expected))) (trace (snd out))
  /\ In (EvPrint (InfoLatest (yyyymmdd latest))) (trace (snd out))
  /\ valid_date latest = true
  /\ valid_date expected = true
  /\ date_lt latest expected = true
  /\ force_update (FL:=Sample.milli) w = false
  /\ fst out = Ret tt
  /\ files (snd out) = fs
  /\ no_write (trace (snd out))
  /\ In (EvPrint (InfoSkip (yyyymmdd latest) (yyyymmdd expected)))
        (trace (snd out)).
Proof.
  intros w fs out now_bj latest expected.
  split; [in_list|]. split; [in_list|].
  split; [vm_compute; reflexivity|]. split; [vm_compute; reflexivity|].
  split; [vm_compute; reflexivity|]. split; [vm_compute; reflexivity|].
  refine (main_behind_expected Sample.milli Sample.json_load Sample.json_dump
            Sample.sort_values w fs (fst out) (snd out) now_bj
            latest expected _ _ _ _ _ _ _).
  - apply surjective_pairing.
  - in_list.
  - in_list.
  - vm_compute; reflexivity.
  - vm_compute; reflexivity.
  - vm_compute; reflexivity.
  - vm_compute; reflexivity.
Defined.


(** The failing input of C6: close 10.755 and volume 2000 with a NaN
    amount.  The record carries NaN, where close times volume rounds to
    21510.0. *)
Lemma row_to_json_keeps_amount_witness :
  let latest := Sample.nan_bar "20240105" in
  let data := mksnapshot (F:=option Z) "02618.HK" "2024-01-05"
                (Some 10500) (Some 10800) (Some 10400) (Some 10760)
                2000 None in
  none_or_empty (get_default latest "amount" PNone) = false
  /\ row_to_json Sample.milli_nan latest TS_CODE = Ret data
  /\ round2 Sample.milli_nan
        (fmul Sample.milli_nan (Some 10755) (Some 2000000))
     = Some 21510000
  /\ exists amount_f : float Sample.milli_nan,
       py_float (FL:=Sample.milli_nan) (get_default latest "amount" PNone)
       = Ret amount_f
       /\ snap_amount data = round2 Sample.milli_nan amount_f.
Proof.
  intros latest data.
  split; [vm_compute; reflexivity|]. split; [vm_compute; reflexivity|].
  split; [vm_compute; reflexivity|].
  refine (row_to_json_keeps_amount Sample.milli_nan latest TS_CODE data _ _);
    vm_compute; reflexivity.
Defined.

(** The empty string in the amount cell is taken as no amount. *)
Example empty_amount_is_derived :
  row_to_json Sample.milli
    (("amount", PStr "") :: Sample.bar "20240105") TS_CODE
  = Ret (mksnapshot (F:=Z) "02618.HK" "2024-01-05"
           10500 10800 10400 10760 2000 21510000).
Proof. vm_compute. reflexivity. Qed.

Lemma load_existing_date_tolerant_witness :
  let st := initial (F:=Z) (Sample.only_output "oops") in
  files st OUT_FILE = Some "oops"
  /\ no_stored_date Sample.json_load "oops"
  /\ load_existing_date Sample.milli Sample.json_load st
     = (Ret None,
        mkstate (files st) (ticks st) (trace st ++ [EvRead OUT_FILE]))
  /\ (forall st0 : state (float Sample.milli),
        files st0 OUT_FILE = None ->
        fst (load_existing_date Sample.milli Sample.json_load st0) = Ret None).
Proof.
  intro st.
  split; [vm_compute; reflexivity|]. split; [vm_compute; exact I|].
  refine (load_existing_date_tolerant Sample.milli Sample.json_load st
            "oops" _ _).
  - vm_compute; reflexivity.
  - vm_compute; exact I.
Defined.

Lemma main_no_data_witness :
  let w := Sample.world_of (Some "secret")
             (mkdatetime (mkdate 2024 1 5) 10 0 0 0) (inr None) in
  let fs := Sample.only_output (Sample.document "2024-01-04") in
  let out := Sample.run w fs in
  In (EvQuery TS_CODE "20231206" "20240105") (trace (snd out))
  /\ no_data (hk_daily w TS_CODE "20231206" "20240105")
  /\ fst out = Ret tt
  /\ files (snd out) = fs
  /\ no_write (trace (snd out))
  /\ In (EvPrint InfoNoData) (trace (snd out)).
Proof.
  intros w fs out.
  split; [in_list|]. split; [vm_compute; exact I|].
  refine (main_no_data Sample.milli Sample.json_load Sample.json_dump
            Sample.sort_values w fs (fst out) (snd out)
            TS_CODE "20231206" "20240105" _ _ _).
  - apply surjective_pairing.
  - in_list.
  - vm_compute; exact I.
Defined.

Lemma main_missing_token_witness :
  let w := Sample.world_of None (mkdatetime (mkdate 2024 1 5) 10 0 0 0)
             (inr (Some [Sample.bar "20240105"])) in
  let st := initial (F:=Z)
              (Sample.only_output (Sample.document "2024-01-04")) in
  (getenv w "HK_MARKET_API_TOKEN" = None
   \/ getenv w "HK_MARKET_API_TOKEN" = Some "")
  /\ main Sample.milli Sample.json_load Sample.json_dump Sample.sort_values
          w st
     = (Raise (RuntimeError "Missing HK_MARKET_API_TOKEN in environment"),
        st).
Proof.
  intros w st.
  split; [left; vm_compute; reflexivity|].
  refine (main_missing_token Sample.milli Sample.json_load Sample.json_dump
            Sample.sort_values w st _).
  left. vm_compute; reflexivity.
Defined.

(** ** Further properties of the estimator *)









(** ** Further properties of the clock, the row and the stored date *)

(** What [t + timedelta(hours=8)] returns is a time of the calendar, eight
    hours later, and it returns whenever that time is in the calendar. *)
Lemma datetime_add_hours_8 (utc : datetime) :
  valid_datetime utc = true ->
  (forall t : datetime,
     datetime_add_hours utc 8 = Ret t ->
     valid_datetime t = true
     /\ seconds_of t = seconds_of utc + 8 * 3600
     /\ microsecond t = microsecond utc)
  /\ (toordinal (date_of utc) < MAXORDINAL \/ hour utc < 16 ->
      exists t : datetime, datetime_add_hours utc 8 = Ret t).
Proof.
  intros Hv.
  destruct (valid_datetime_bounds _ Hv) as (Hd & Hh & Hm & Hs & Hu).
  destruct (toordinal_ok _ Hd) as [Ho _].
  unfold datetime_add_hours.
  set (secs := hour utc * 3600 + minute utc * 60 + second utc + 8 * 3600).
  assert (Hsecs : 28800 <= secs < 86400 + 28800) by (unfold secs; lia).
  assert (Hq : secs / 86400 = 0 \/ secs / 86400 = 1) by lia.
  split.
  - intros t Ht.
    destruct ((0 <? toordinal (date_of utc) + secs / 86400)
              && (toordinal (date_of utc) + secs / 86400 <=? MAXORDINAL))
      eqn:E; [|discriminate Ht].
    apply andb_true_iff in E. destruct E as [E1 E2].
    apply Z.ltb_lt in E1. apply Z.leb_le in E2.
    assert (Hday : 1 <= toordinal (date_of utc) + secs / 86400 <= MAXORDINAL)
      by lia.
    destruct (fromordinal_ok _ Hday) as [Hvd' Hod'].
    injection Ht as <-. split.
    + unfold valid_datetime.
      cbn [date_of hour minute second microsecond].
      rewrite Hvd'. cbn [andb].
      rewrite !andb_true_iff, !Z.leb_le, !Z.ltb_lt. lia.
    + split; [|reflexivity].
      unfold seconds_of. cbn [date_of hour minute second].
      rewrite Hod'. fold secs. lia.
  - intros Hroom.
    replace ((0 <? toordinal (date_of utc) + secs / 86400)
             && (toordinal (date_of utc) + secs / 86400 <=? MAXORDINAL))
      with true
      by (symmetry; apply andb_true_iff; split;
          [apply Z.ltb_lt | apply Z.leb_le]; unfold secs in *; lia).
    eexists. reflexivity.
Qed.

Section ClockProperties.

Variable FL : PyFloat.
Variable W : world (float FL).




End ClockProperties.




(** Eight characters without a dash, written with dashes, are ten
    characters, and taking the dashes out gives them back. *)
Lemma dashed_roundtrip (td : string) :
  String.length td = 8%nat ->
  no_dash td = true ->
  String.length (dashed td) = 10%nat
  /\ replace_char "-" "" (dashed td) = td.
Proof.
  intros Hlen Hnd.
  do 8 (destruct td as [|? td]; [discriminate Hlen|]).
  destruct td; [|discriminate Hlen].
  cbn [no_dash] in Hnd.
  repeat (apply andb_true_iff in Hnd; destruct Hnd as [? Hnd]).
  repeat match goal with
         | H : negb _ = true |- _ => apply negb_true_iff in H
         end.
  unfold dashed, slice.
  cbn [Nat.sub substring append String.length replace_char].
  split; [reflexivity|].
  repeat match goal with
         | H : Ascii.eqb _ _ = false |- _ => rewrite H; clear H
         end.
  reflexivity.
Qed.

Section RowExtras.

Variable FL : PyFloat.
Variable json_load : string -> exn + json (float FL).



End RowExtras.



(** ** Further properties of the fetch *)

Section FetchProperties.

Variable FL : PyFloat.
Variable sort_values : string -> frame (float FL) -> frame (float FL).
Variable W : world (float FL).

(** The fetch, step by step: it touches no file; it does nothing before
    its one query, made for the dates it computed, and what follows is
    decided by the answer. *)
Lemma fetch_steps (ts_code : string) (days_back : Z)
      (st st' : state (float FL))
      (r : res (option (frame (float FL)) * option (series (float FL)))) :
  fetch_hk_daily_latest FL sort_values W ts_code days_back st = (r, st') ->
  files st' = files st
  /\ exists evs : list (event (float FL)),
       trace st' = (trace st ++ evs)%list
       /\ ((evs = [] /\ forall p, r <> Ret p)
           \/ exists (now_bj : datetime) (start : date)
                     (rest : list (event (float FL))),
                datetime_add_hours (utcnow W (ticks st)) 8 = Ret now_bj
                /\ date_sub_days (date_of now_bj) days_back = Ret start
                /\ evs = EvQuery ts_code (strftime_Ymd start)
                                 (strftime_Ymd (date_of now_bj)) :: rest
                /\ (forall c s e, ~ In (EvQuery c s e) rest)
                /\ match hk_daily W ts_code (strftime_Ymd start)
                                  (strftime_Ymd (date_of now_bj)) with
                   | inl ex => r = Raise ex /\ rest = []
                   | inr None => r = Ret (None, None)
                   | inr (Some df) =>
                       if frame_empty df then r = Ret (None, None)
                       else
                         forall sorted latest,
                           r = Ret (sorted, Some latest) ->
                           exists df',
                             astype_str FL "trade_date" df = Ret df'
                             /\ sorted
                                = Some (sort_values "trade_date" df')
                             /\ iloc_last (sort_values "trade_date" df')
                                = Ret latest
                   end).
Proof.
  unfold fetch_hk_daily_latest, bj_now, call_hk_daily, print, emit, bind,
    lift, ret, raise, read_clock.
  intros H. repeat run_step H; run_done H;
    (split; [reflexivity|]); eexists;
    (split; [rewrite <- ?app_assoc; cbn [app]; try reflexivity;
             symmetry; apply app_nil_r|]).
  all: try (left; split; [reflexivity | intros p F; discriminate F]).
  all: right; do 3 eexists.
  all: split; [reflexivity|]; split; [eassumption|];
    split; [reflexivity|].
  all: split;
    [ intros qc qs qe Hin; cbn [In] in Hin;
      repeat (destruct Hin as [Hin | Hin]; try discriminate Hin);
      exact Hin |].
  all: match goal with
       | E : hk_daily W _ _ _ = _ |- _ => rewrite E
       end.
  all: try match goal with
           | E : frame_empty _ = _ |- _ => rewrite E
           end.
  all: try reflexivity.
  all: try (split; reflexivity).
  all: intros sorted0 latest0 Hr; try discriminate Hr.
  injection Hr as <- <-. eexists. split; [eassumption|].
  split; [reflexivity | assumption].
Qed.


Lemma lookup_set_item (k : string) (v : pyval (float FL))
      (row : series (float FL)) :
  lookup k (set_item k v row) = Some v.
Proof.
  unfold lookup. induction row as [|[k' v'] rest IH]; cbn [set_item find fst].
  - rewrite String.eqb_refl. reflexivity.
  - destruct (String.eqb k' k) eqn:E; cbn [find fst]; rewrite E.
    + reflexivity.
    + exact IH.
Qed.

(** [astype(str)] keeps the rows and what each shows in the column. *)
Lemma astype_str_rows (col : string) (df : frame (float FL)) :
  forall df', astype_str FL col df = Ret df' ->
  Forall2 (fun row row' =>
             exists s, column_str col row = Some s
                       /\ column_str col row' = Some s) df df'.
Proof.
  induction df as [|row rest IH]; intros df' H; cbn [astype_str] in H.
  - injection H as <-. constructor.
  - unfold getitem in H. destruct (lookup col row) as [v|] eqn:Ev;
      [|discriminate H].
    cbn [res_bind] in H.
    destruct (astype_str FL col rest) as [rest'| |]; try discriminate H.
    cbn [res_bind] in H. injection H as <-.
    constructor; [|apply IH; reflexivity].
    exists (py_str v). unfold column_str.
    rewrite Ev, lookup_set_item. split; reflexivity.
Qed.

Lemma iloc_last_is_last (df : frame (float FL)) (row : series (float FL)) :
  iloc_last df = Ret row -> exists front, df = (front ++ [row])%list.
Proof.
  unfold iloc_last. destruct (rev df) as [|x t] eqn:E; intros H;
    [discriminate H|].
  injection H as ->. exists (rev t).
  rewrite <- (rev_involutive df), E. reflexivity.
Qed.

Lemma sorted_last_is_greatest {A : Type} (R : A -> A -> Prop)
      (front : list A) (x : A) :
  StronglySorted R (front ++ [x]) -> forall y, In y front -> R y x.
Proof.
  induction front as [|z front IH]; intros Hs y Hy; [destruct Hy|].
  cbn [app] in Hs. apply StronglySorted_inv in Hs. destruct Hs as [Hs Hz].
  destruct Hy as [-> | Hy].
  - rewrite Forall_forall in Hz. apply Hz. apply in_or_app. right. left.
    reflexivity.
  - exact (IH Hs y Hy).
Qed.


End FetchProperties.

(** ** Further properties of a run *)

Section RunExtras.

Variable FL : PyFloat.
Variable json_load : string -> exn + json (float FL).
Variable json_dump : snapshot (float FL) -> string.
Variable sort_values : string -> frame (float FL) -> frame (float FL).

(** Running [main] from any state, case by case, with the fetch left as
    an equation. *)
Ltac main_cases H :=
  unfold main, bj_now, print, emit, bind, lift, ret, raise,
    read_clock, open_write in H;
  repeat first [ rewrite load_existing_date_spec in H | run_step H ];
  run_done H.

Ltac fetch_facts :=
  match goal with
  | Hf : fetch_hk_daily_latest _ _ _ _ _ _ = _ |- _ =>
      let Hs := fresh "Hsteps" in
      pose proof (fetch_steps _ _ _ _ _ _ _ _ Hf) as Hs;
      apply fetch_spec in Hf;
      destruct Hf as (Hfiles & evs & Htrace & Hevs & _);
      destruct Hs as (_ & evs' & Htrace' & Hsteps);
      cbn [trace files ticks] in Hfiles, Htrace, Htrace';
      rewrite Htrace in Htrace'; apply app_inv_head in Htrace';
      subst evs'
  end.

Variable W : world (float FL).


Ltac not_fetch_event H :=
  match goal with
  | Hall : Forall fetch_event _ |- _ =>
      exact (False_ind _ (fetch_event_in _ _ _ Hall H))
  end.

Ltac trace_cases H :=
  in_trace H; try discriminate H; try not_fetch_event H.

Ltac find_event :=
  lazymatch goal with
  | |- In _ (_ ++ _)%list =>
      apply in_or_app; first [left; find_event | right; find_event]
  | |- In _ (_ :: _) => first [left; reflexivity | right; find_event]
  end.

Ltac new_events :=
  eexists; split;
  [ rewrite <- ?app_assoc; cbn [app]; try reflexivity;
    symmetry; apply app_nil_r |].


Lemma eq_opt_false (a : option string) (b : string) :
  eq_opt a b = false -> a <> Some b.
Proof.
  destruct a as [x|]; cbn [eq_opt]; intros H E; [|discriminate E].
  injection E as ->. rewrite String.eqb_refl in H. discriminate H.
Qed.


Lemma eq_opt_true (a : option string) (b : string) :
  eq_opt a b = true -> a = Some b.
Proof.
  destruct a as [x|]; cbn [eq_opt]; intros H; [|discriminate H].
  apply String.eqb_eq in H. subst x. reflexivity.
Qed.

(** [row_to_json] has no loop: it returns or raises. *)
Lemma row_to_json_ends (latest : series (float FL)) (ts_code : string) :
  row_to_json FL latest ts_code <> OutOfFuel.
Proof.
  unfold row_to_json, getitem, get_default, py_float, py_int, fmul_int,
    res_bind.
  repeat match goal with
         | |- context [match ?x with _ => _ end] =>
             lazymatch x with
             | context [match _ with _ => _ end] => fail
             | _ => destruct x
             end
         end; discriminate.
Qed.


Lemma row_to_json_date (latest : series (float FL)) (ts_code : string)
      (data : snapshot (float FL)) (v : pyval (float FL)) :
  row_to_json FL latest ts_code = Ret data ->
  getitem latest "trade_date" = Ret v ->
  snap_date data = dashed (py_str v).
Proof.
  intros Hrow Htd. unfold row_to_json in Hrow. do 10 row_step Hrow.
  rewrite Htd in Hrow. cbn [res_bind] in Hrow.
  injection Hrow as <-. reflexivity.
Qed.

(** A run that logs an update has written the record it logs, and the
    date of that record is the latest trade date it logged, with
    dashes. *)
Lemma main_updated_state (fs : string -> option string) (r : res unit)
      (st' : state (float FL)) (data : snapshot (float FL))
      (latest_td : string) :
  main FL json_load json_dump sort_values W (initial fs) = (r, st') ->
  In (EvPrint (OkUpdated data)) (trace st') ->
  In (EvPrint (InfoLatest latest_td)) (trace st') ->
  files st' = write_file OUT_FILE (json_dump data) fs
  /\ snap_date data = dashed latest_td.
Proof.
  intros Hrun Hok Hlatest. unfold initial in Hrun. main_cases Hrun.
  all: try fetch_facts.
  all: try rewrite Htrace in *.
  all: trace_cases Hok.
  all: injection Hok as <-.
  all: trace_cases Hlatest.
  all: injection Hlatest as <-.
  all: split; [rewrite Hfiles; reflexivity|].
  all: eapply row_to_json_date; eassumption.
Qed.

(** A run that finds the latest trade date recorded in the output file,
    with the override off, writes nothing; if it gets as far as reading
    the file, it logs that and returns. *)
Lemma main_no_changes (fs : string -> option string) (r : res unit)
      (st' : state (float FL)) (latest_td : string) :
  main FL json_load json_dump sort_values W (initial fs) = (r, st') ->
  recorded json_load fs = Some latest_td ->
  In (EvPrint (InfoLatest latest_td)) (trace st') ->
  force_update W = false ->
  files st' = fs
  /\ no_write (trace st')
  /\ (In (EvRead OUT_FILE) (trace st') ->
      r = Ret tt /\ In (EvPrint (InfoNoChanges latest_td)) (trace st')).
Proof.
  intros Hrun Hrec Hlatest Hforce. unfold initial in Hrun.
  unfold recorded in Hrec. main_cases Hrun.
  all: try fetch_facts.
  all: try rewrite Htrace in *.
  all: trace_cases Hlatest.
  all: injection Hlatest as Hlatest.
  all: subst.
  all: try rewrite Hforce in *.
  all: try match goal with
           | E : files _ OUT_FILE = _ |- _ => rewrite E in Hrec
           end.
  all: try discriminate Hrec.
  all: try rewrite Hrec in *.
  all: cbn [eq_opt negb] in *.
  all: try rewrite String.eqb_refl in *.
  all: try discriminate.
  all: split; [reflexivity|]; split;
    [intros p t Hw; trace_cases Hw|].
  all: intros Hread; trace_cases Hread.
  all: split; [reflexivity | find_event].
Qed.

End RunExtras.


(** ** The further properties at the concrete instance *)







